(** * TalentScout hiring assistant: session state machine, validators and
      LLM gateway of [src/app.py], embedded in Rocq.

    Python values are modelled as follows.
    - [str] is [string]: the bytes of the UTF-8 encoding of the text.
      [len], [str.isdigit] and [str.strip] work on the code points, with
      the digits and the white space of the Unicode database; [str.lower]
      maps the characters whose lower case can meet an ASCII keyword.
    - the [candidate] dict, which the script only ever sets to [{}] or to a
      dict of the seven form fields, is an [option CandidateProfile]; [{}]
      is [None].
    - the message dicts [{"role": .., "content": ..}] are records.
    - the flags [view] and [stage], which the script keeps as strings, are
      enumerations.
    - the script is re-run from top to bottom after every user action; one
      run is a computation in a state monad over the session state, which
      also records what the run shows to the user and what it sends over the
      network. *)

From Stdlib Require Import Ascii String List Bool Arith NArith QArith Lia.
Import ListNotations.

Local Close Scope Q_scope.
Local Open Scope string_scope.

(* ===================================================================== *)
(** ** Python string operations                                           *)
(* ===================================================================== *)

Module Py.

(** A [str] is kept as the bytes of its UTF-8 encoding.  [chars] reads the
    code points back, each with the number of bytes that it takes; a byte
    that starts no well-formed sequence (there is none in a Python string)
    counts as one character outside Unicode. *)

Definition is_cont (n : N) : bool := ((128 <=? n) && (n <=? 191))%N.

Fixpoint chars (s : string) : list (N * nat) :=
  match s with
  | EmptyString => []
  | String b0 r0 =>
      let n0 := Ascii.N_of_ascii b0 in
      let stray := ((1114112 + n0)%N, 1) in
      if (n0 <? 128)%N then (n0, 1) :: chars r0
      else
        match r0 with
        | EmptyString => [stray]
        | String b1 r1 =>
            let n1 := Ascii.N_of_ascii b1 in
            if ((194 <=? n0) && (n0 <=? 223))%N && is_cont n1 then
              (((n0 - 192) * 64 + (n1 - 128))%N, 2) :: chars r1
            else
              match r1 with
              | EmptyString => stray :: chars r0
              | String b2 r2 =>
                  let n2 := Ascii.N_of_ascii b2 in
                  let c3 := ((n0 - 224) * 4096 + (n1 - 128) * 64 + (n2 - 128))%N in
                  if ((224 <=? n0) && (n0 <=? 239))%N && is_cont n1 && is_cont n2
                     && (2048 <=? c3)%N
                     && negb ((55296 <=? c3) && (c3 <=? 57343))%N then
                    (c3, 3) :: chars r2
                  else
                    match r2 with
                    | EmptyString => stray :: chars r0
                    | String b3 r3 =>
                        let n3 := Ascii.N_of_ascii b3 in
                        let c4 := ((n0 - 240) * 262144 + (n1 - 128) * 4096
                                   + (n2 - 128) * 64 + (n3 - 128))%N in
                        if ((240 <=? n0) && (n0 <=? 244))%N && is_cont n1
                           && is_cont n2 && is_cont n3
                           && ((65536 <=? c4) && (c4 <=? 1114111))%N then
                          (c4, 4) :: chars r3
                        else stray :: chars r0
                    end
              end
        end
  end.

(** Membership of a code point in a table of ranges, bounds included. *)
Definition in_ranges (table : list (N * N)) (c : N) : bool :=
  existsb (fun r => ((fst r <=? c) && (c <=? snd r))%N) table.

(** The code points for which [str.isdigit] is true: the characters of the
    Unicode database (version 14.0.0, that of CPython 3.11) whose numeric
    type is decimal or digit.  The table belongs to the interpreter, not to
    the repository. *)
Definition DIGITS : list (N * N) :=
  [(48, 57); (178, 179); (185, 185); (1632, 1641); (1776, 1785);
   (1984, 1993); (2406, 2415); (2534, 2543); (2662, 2671); (2790, 2799);
   (2918, 2927); (3046, 3055); (3174, 3183); (3302, 3311); (3430, 3439);
   (3558, 3567); (3664, 3673); (3792, 3801); (3872, 3881); (4160, 4169);
   (4240, 4249); (4969, 4977); (6112, 6121); (6160, 6169); (6470, 6479);
   (6608, 6618); (6784, 6793); (6800, 6809); (6992, 7001); (7088, 7097);
   (7232, 7241); (7248, 7257); (8304, 8304); (8308, 8313); (8320, 8329);
   (9312, 9320); (9332, 9340); (9352, 9360); (9450, 9450); (9461, 9469);
   (9471, 9471); (10102, 10110); (10112, 10120); (10122, 10130);
   (42528, 42537); (43216, 43225); (43264, 43273); (43472, 43481);
   (43504, 43513); (43600, 43609); (44016, 44025); (65296, 65305);
   (66720, 66729); (68160, 68163); (68912, 68921); (69216, 69224);
   (69714, 69722); (69734, 69743); (69872, 69881); (69942, 69951);
   (70096, 70105); (70384, 70393); (70736, 70745); (70864, 70873);
   (71248, 71257); (71360, 71369); (71472, 71481); (71904, 71913);
   (72016, 72025); (72784, 72793); (73040, 73049); (73120, 73129);
   (92768, 92777); (92864, 92873); (93008, 93017); (120782, 120831);
   (123200, 123209); (123632, 123641); (125264, 125273); (127232, 127242);
   (130032, 130041)]%N.

(** The code points for which [str.isspace] is true, which are those that
    [str.strip] removes (same database). *)
Definition WHITESPACE : list (N * N) :=
  [(9, 13); (28, 32); (133, 133); (160, 160); (5760, 5760); (8192, 8202);
   (8232, 8233); (8239, 8239); (8287, 8287); (12288, 12288)]%N.

(** [len(s)]: the number of code points. *)
Definition len (s : string) : nat := length (chars s).

(** Truth value of a string: [bool(s)], false only for the empty one. *)
Definition truthy (s : string) : bool :=
  match s with
  | EmptyString => false
  | String _ _ => true
  end.

(** [s.isdigit()]: at least one character, and all of them digits. *)
Definition isdigit (s : string) : bool :=
  truthy s && forallb (fun c => in_ranges DIGITS (fst c)) (chars s).

(** The number of bytes of the white space with which a string starts. *)
Fixpoint space_bytes (cs : list (N * nat)) : nat :=
  match cs with
  | [] => 0
  | (c, n) :: rest => if in_ranges WHITESPACE c then n + space_bytes rest else 0
  end.

(** [s.strip()]: [s] without the white space at its two ends. *)
Definition strip (s : string) : string :=
  let cs := chars s in
  let lead := space_bytes cs in
  let trail := space_bytes (rev cs) in
  String.substring lead (String.length s - lead - trail) s.

Definition is_upper (c : ascii) : bool :=
  let n := Ascii.N_of_ascii c in ((65 <=? n) && (n <=? 90))%N.

(** [c.lower()] for a character that takes one byte. *)
Definition lower_char (c : ascii) : ascii :=
  if is_upper c then Ascii.ascii_of_N (Ascii.N_of_ascii c + 32) else c.

(** The two characters outside ASCII whose lower case has an ASCII letter
    in it: the Kelvin sign U+212A, which becomes "k", and the dotted capital
    I U+0130, which becomes "i" followed by the combining dot U+0307. *)
Definition is_kelvin (c d e : ascii) : bool :=
  (Ascii.eqb c "226" && Ascii.eqb d "132" && Ascii.eqb e "170")%char.

Definition is_dotted_I (c d : ascii) : bool :=
  (Ascii.eqb c "196" && Ascii.eqb d "176")%char.

(** [s.lower()].  The ASCII capitals and the two characters above are
    mapped as Python maps them.  The other letters outside ASCII are left as
    they are: by the Unicode database neither they nor their lower-case
    forms have an ASCII character in them, and the script only ever looks
    for ASCII keywords in a lowered string, which it then drops; no test of
    the script can tell the difference. *)
Fixpoint lower (s : string) : string :=
  match s with
  | EmptyString => EmptyString
  | String c r =>
      match r with
      | EmptyString => String (lower_char c) EmptyString
      | String d r1 =>
          if is_dotted_I c d then
            String "i"%char (String "204"%char (String "135"%char (lower r1)))
          else
            match r1 with
            | EmptyString => String (lower_char c) (lower r)
            | String e r2 =>
                if is_kelvin c d e then String "k"%char (lower r2)
                else String (lower_char c) (lower r)
            end
      end
  end.

(** [k in t] for strings: [k] is a prefix of some suffix of [t]. *)
Fixpoint contains (k t : string) : bool :=
  String.prefix k t ||
  match t with
  | EmptyString => false
  | String _ r => contains k r
  end.

(** [t.endswith(suf)]: some suffix of [t] is [suf]. *)
Fixpoint endswith (t suf : string) : bool :=
  String.eqb t suf ||
  match t with
  | EmptyString => false
  | String _ r => endswith r suf
  end.

(** [any(p(k) for k in l)] *)
Definition any {A} (p : A -> bool) (l : list A) : bool := existsb p l.

(** [a or b] on strings: [a] unless it is empty. *)
Definition or_else (a b : string) : string := if truthy a then a else b.

(** The line feed and the double quote, for the multi-line literals. *)
Definition nl : string := String "010"%char EmptyString.
Definition dq : string := String "034"%char EmptyString.

End Py.

(* ===================================================================== *)
(** ** Keyword lists and validators                                       *)
(* ===================================================================== *)

Definition END_KEYWORDS : list string :=
  ["bye"; "goodbye"; "quit"; "exit"; "stop"; "thank you"; "thanks"].

Definition KNOWN_TECH_KEYWORDS : list string :=
  ["python"; "java"; "javascript"; "typescript"; "react"; "angular"; "vue";
   "node"; "django"; "flask"; "spring"; "flutter"; "kotlin"; "swift";
   "html"; "css"; "tailwind"; "bootstrap"; "sql"; "mysql"; "postgres";
   "mongodb"; "redis"; "nlp"; "computer vision"; "cv"; "pytorch";
   "tensorflow"; "sklearn"; "scikit"; "docker"; "kubernetes"; "aws";
   "azure"; "gcp"; "linux"; "bash"; "git"].

Definition OUT_OF_SCOPE_KEYWORDS : list string :=
  ["story"; "joke"; "poem"; "song"; "lyrics"; "weather";
   "news"; "movie"; "games"; "time pass"].

Definition is_end_keyword (text : string) : bool :=
  let text := Py.lower text in
  Py.any (fun k => Py.contains k text) END_KEYWORDS.

Definition looks_like_tech_stack (text : string) : bool :=
  let t := Py.lower text in
  Py.any (fun kw => Py.contains kw t) KNOWN_TECH_KEYWORDS.

(* ===================================================================== *)
(** ** The texts of the script                                            *)
(* ===================================================================== *)

(** Line 17: the warning shown when no API key is configured. *)
Definition MSG_KEY_NOT_SET : string :=
  "⚠️ GROQ_API_KEY is not set.

• Locally: create a `.env` file with `GROQ_API_KEY=...`
• On Streamlit Cloud: add `GROQ_API_KEY` in **Settings → Secrets**.".

(** Line 119: the literal of [_generic_fallback_markdown], before [strip()]. *)
Definition GENERIC_FALLBACK_RAW : string :=
  "
### General

1. Tell me about a recent project you worked on and what your role was.
2. How do you usually debug and fix tricky issues in your code?
3. How do you keep yourself updated with new tools, frameworks, or libraries?
4. Describe a situation where you had to learn a new technology quickly.

**Mini Assignment:**  
Pick one of your past projects and refactor it to improve code readability and structure.  
Write down what you improved and why.
    ".

(** Line 140: the literal of the question-generation system prompt, before [strip()]. *)
Definition GEN_SYSTEM_PROMPT_RAW : string :=
  "
You are an experienced technical interviewer for software roles.

The candidate will give you a TECH STACK string (comma-separated or space-separated),
for example: " ++ Py.dq ++ "Python, Flutter, React, PostgreSQL" ++ Py.dq ++ ".

Your task:

- Extract the distinct technologies from the string.
- For EACH technology, create a section in this exact format:

### <Technology Name>
1. Question 1 (short, practical, and specific to this technology)
2. Question 2
3. Question 3

**Mini Assignment:** One small hands-on task that uses ONLY this technology.

RULES:
- Every technology MUST have its OWN section.
- Questions MUST be about that technology.
- Respond ONLY in markdown as described. No intro, no summary, no extra text.
".

(** Line 167 *)
Definition MSG_GEN_NO_CLIENT : string :=
  "⚠️ GROQ_API_KEY is missing or invalid. Using generic questions instead.".

(** Line 183 *)
Definition MSG_GEN_BAD_FORMAT : string :=
  "LLM response was not in the expected format. Showing a generic set instead.".

(** Line 189 *)
Definition MSG_GEN_API_FAILED : string :=
  "❌ Groq API call failed. Using generic questions instead.".

(** Line 203: the reply of [answer_followup] without a client. *)
Definition FOLLOWUP_NO_CLIENT : string :=
  "I can’t call the AI model right now, but you can still use the questions above to practice on your own. 😊".

(** Line 211: the literal of the follow-up system prompt, before [strip()]. *)
Definition FOLLOWUP_SYSTEM_PROMPT_RAW : string :=
  "
You are an interview preparation assistant.

You are chatting with a candidate AFTER you have already generated a set of
practice questions and mini-assignments for them.

Your job now:

- Answer their follow-up questions.
- Stay strictly focused on interview preparation, career advice, and their tech stack.
- You can explain concepts, give tips, or suggest how to approach the questions above.
- Be encouraging, concise, and practical.

IMPORTANT:
- Do NOT generate a brand new long list of questions.
- Do NOT talk about anything unrelated to interviews or tech career.
".

(** Line 252: the reply of [answer_followup] on an exception, up to the exception name. *)
Definition FOLLOWUP_FAILED_PREFIX : string :=
  "Something went wrong while generating a response, but you can still use the questions above to practice. (Error: ".

(** Line 278 *)
Definition MSG_CONTACT_INCOMPLETE : string :=
  "Please fill all the fields before submitting.".

(** Line 280 *)
Definition MSG_CONTACT_RECEIVED : string :=
  "✅ Your query has been received! Our team will contact you soon.".

(** Line 348: the first history message. *)
Definition GREETING : string :=
  "Hey there! 👋

I’m your **TalentScout Hiring Assistant**.

Fill out your basic details below, and I’ll generate **practice interview questions** and **mini assignments** tailored to your tech stack.".

(** Line 427 *)
Definition MSG_REQUIRED_FIELDS : string :=
  "Please fill at least your **name**, a valid **Gmail address**, and your **tech stack**.".

(** Line 434 *)
Definition MSG_BAD_EMAIL : string :=
  "Please enter a valid Gmail address (must end with @gmail.com).".

(** Line 437 *)
Definition MSG_BAD_PHONE : string :=
  "Please enter a valid 10-digit phone number (numbers only).".

(** Line 440 *)
Definition MSG_BAD_TECH_STACK : string :=
  "I’m not sure that looks like a tech stack yet. 🤔

Please enter skills like `Python, React, Flutter, NLP, SQL` instead of a random sentence or request.".

(** Line 496: the closing message. *)
Definition GOODBYE : string :=
  "You’re welcome! 💫

All the best for your interviews — you’ve got this. 🚀
Quick tips before you go:
- Practice answering out loud
- Time yourself for each question
- Note down gaps and revise those topics

See you soon, and good luck! 🍀".

(** Line 512: the reply after the session has ended. *)
Definition SESSION_WRAPPED_UP : string :=
  "This session is already wrapped up. Refresh the page if you’d like to start a fresh practice run. 🔁".

(** Line 519: the reply before the form is done. *)
Definition FILL_FORM_FIRST : string :=
  "First, please fill out the form above so I can understand your profile. Then I’ll generate practice questions for you. 📝".

(** Line 527: the reply to an out-of-scope request. *)
Definition OUT_OF_SCOPE_REPLY : string :=
  "I’m not trained for that yet 🤖

Right now I only know how to help with **interview preparation** – your tech stack, concepts, and how to answer questions.

If you need help, try asking things like:
- " ++ Py.dq ++ "Can you explain question 2 in simple words?" ++ Py.dq ++ "
- " ++ Py.dq ++ "How should I structure an answer about OOP?" ++ Py.dq ++ "
- " ++ Py.dq ++ "What topics should I revise for this tech stack?" ++ Py.dq.

(* ===================================================================== *)
(** ** Data model                                                         *)
(* ===================================================================== *)

(** [st.session_state.view]: "intro" -> "chat" *)
Inductive View := Intro | Chat.

(** [st.session_state.stage]: "form" -> "questions" -> "ended" *)
Inductive Stage := Form | Questions | Ended.

Definition Stage_eqb (a b : Stage) : bool :=
  match a, b with
  | Form, Form | Questions, Questions | Ended, Ended => true
  | _, _ => false
  end.

(** One entry of a message list: [{"role": role, "content": content}]. *)
Record Message := { role : string; content : string }.

(** The dict stored in [st.session_state.candidate] by lines 447-455. *)
Record CandidateProfile := {
  full_name : string;
  email : string;
  phone : string;
  years_experience : Q;
  desired_position : string;
  location : string;
  tech_stack : string
}.

(** [st.session_state], lines 57-76. *)
Record SessionState := {
  view : View;
  stage : Stage;
  history_messages : list Message;
  chat_messages : list Message;
  candidate : option CandidateProfile;
  latest_questions : string;
  show_contact : bool
}.

(** The state of a fresh session: every key at the default of lines 57-76. *)
Definition initial_state : SessionState :=
  {| view := Intro; stage := Form; history_messages := [];
     chat_messages := []; candidate := None;
     latest_questions := EmptyString; show_contact := false |}.

Definition set_view (v : View) (s : SessionState) : SessionState :=
  {| view := v; stage := stage s; history_messages := history_messages s;
     chat_messages := chat_messages s; candidate := candidate s;
     latest_questions := latest_questions s; show_contact := show_contact s |}.

Definition set_stage (g : Stage) (s : SessionState) : SessionState :=
  {| view := view s; stage := g; history_messages := history_messages s;
     chat_messages := chat_messages s; candidate := candidate s;
     latest_questions := latest_questions s; show_contact := show_contact s |}.

Definition set_history_messages (l : list Message) (s : SessionState) : SessionState :=
  {| view := view s; stage := stage s; history_messages := l;
     chat_messages := chat_messages s; candidate := candidate s;
     latest_questions := latest_questions s; show_contact := show_contact s |}.

Definition set_chat_messages (l : list Message) (s : SessionState) : SessionState :=
  {| view := view s; stage := stage s; history_messages := history_messages s;
     chat_messages := l; candidate := candidate s;
     latest_questions := latest_questions s; show_contact := show_contact s |}.

Definition set_candidate (c : option CandidateProfile) (s : SessionState) : SessionState :=
  {| view := view s; stage := stage s; history_messages := history_messages s;
     chat_messages := chat_messages s; candidate := c;
     latest_questions := latest_questions s; show_contact := show_contact s |}.

Definition set_latest_questions (q : string) (s : SessionState) : SessionState :=
  {| view := view s; stage := stage s; history_messages := history_messages s;
     chat_messages := chat_messages s; candidate := candidate s;
     latest_questions := q; show_contact := show_contact s |}.

Definition set_show_contact (b : bool) (s : SessionState) : SessionState :=
  {| view := view s; stage := stage s; history_messages := history_messages s;
     chat_messages := chat_messages s; candidate := candidate s;
     latest_questions := latest_questions s; show_contact := b |}.

(** *** The remote chat-completion service *)

(** The keyword arguments of [client.chat.completions.create]. *)
Record Request := {
  model : string;
  messages : list Message;
  temperature : Q
}.

(** What one call gives: a response whose [choices[0].message.content] is a
    string, or an exception (transport or API failure, or a response without
    that shape) with its type name and its text. *)
Inductive ApiResult :=
| Completion (text : string)
| Raised (exc_type exc_text : string).

(** The global [client]: [None] without an API key, else the service. *)
Definition Client := Request -> ApiResult.

(** *** What a run does besides changing the session state *)

Inductive Level := Warning | Error | Success | Caption.

(** The two operations of the gateway. *)
Inductive GatewayOp :=
| GenerateQuestions (tech_stack : string)
| AnswerFollowup (user_input : string).

(** The events of a run, oldest first: a notice shown by [st.warning],
    [st.error], [st.success] or [st.caption]; the entry into a gateway
    function (kept to state that a handler does not call it); a request
    sent to the service. *)
Inductive Event :=
| Shown (lvl : Level) (text : string)
| Invoked (op : GatewayOp)
| Sent (req : Request).

Record World := { session : SessionState; events : list Event }.

(** *** The user's action that triggers a run *)

(** The values of the candidate form at submission, lines 409-420. *)
Record FormInput := {
  in_full_name : string;
  in_email : string;
  in_phone : string;
  in_years_exp : Q;
  in_desired_pos : string;
  in_location : string;
  in_tech_stack : string
}.

(** Streamlit re-runs the script once per interaction: at most one button,
    form or chat input fires in a run, and only a widget drawn by the
    previous run can fire.  A widget that the current run does not draw is
    never read, so its action is lost. *)
Inductive Action :=
| Rerun
| ContactSubmit (name email message : string)
| CloseClick
| ContactIntroClick
| StartClick
| ContactChatClick
| CandidateSubmit (f : FormInput)
| ChatInput (text : string).

(* ===================================================================== *)
(** ** The monad of a run                                                 *)
(* ===================================================================== *)

Definition M (A : Type) : Type := World -> A * World.

Definition ret {A} (a : A) : M A := fun w => (a, w).

Definition bind {A B} (m : M A) (k : A -> M B) : M B :=
  fun w => let (a, w') := m w in k a w'.

Notation "x <- m ;; k" := (bind m (fun x => k))
  (at level 61, m at next level, right associativity).
Notation "m ;; k" := (bind m (fun _ => k))
  (at level 61, right associativity).

Definition get : M SessionState := fun w => (session w, w).

Definition modify (f : SessionState -> SessionState) : M unit :=
  fun w => (tt, {| session := f (session w); events := events w |}).

Definition emit (e : Event) : M unit :=
  fun w => (tt, {| session := session w; events := (events w ++ [e])%list |}).

Definition when (b : bool) (m : M unit) : M unit :=
  if b then m else ret tt.

(** The session state and the events after running [m]. *)
Definition exec {A} (m : M A) (w : World) : World := snd (m w).
Definition result {A} (m : M A) (w : World) : A := fst (m w).

Definition st_warning (text : string) : M unit := emit (Shown Warning text).
Definition st_error (text : string) : M unit := emit (Shown Error text).
Definition st_success (text : string) : M unit := emit (Shown Success text).
Definition st_caption (text : string) : M unit := emit (Shown Caption text).

(** [client.chat.completions.create(...)] *)
Definition create (c : Client) (req : Request) : M ApiResult :=
  emit (Sent req) ;; ret (c req).

(* ===================================================================== *)
(** ** The script                                                         *)
(* ===================================================================== *)

(** *** Widgets: what each one returns in a run triggered by [a] *)

Inductive ButtonKey := KeyClose | KeyContactIntro | KeyStart | KeyContactChat.

(** [st.button(...)]: true only in the run that its click triggers. *)
Definition st_button (k : ButtonKey) (a : Action) : bool :=
  match k, a with
  | KeyClose, CloseClick => true
  | KeyContactIntro, ContactIntroClick => true
  | KeyStart, StartClick => true
  | KeyContactChat, ContactChatClick => true
  | _, _ => false
  end.

(** [st.form("contact_form")]: the three fields when [submitted]. *)
Definition contact_form (a : Action) : option (string * string * string) :=
  match a with
  | ContactSubmit name email message => Some (name, email, message)
  | _ => None
  end.

(** [st.form("candidate_form")]: the seven fields when [submitted]. *)
Definition candidate_form (a : Action) : option FormInput :=
  match a with
  | CandidateSubmit f => Some f
  | _ => None
  end.

(** [st.chat_input(...)]: the text sent, or [None]. *)
Definition st_chat_input (a : Action) : option string :=
  match a with
  | ChatInput text => Some text
  | _ => None
  end.

(** *** Lines 106-111 *)

Definition add_history (role content : string) : M unit :=
  modify (fun s =>
    set_history_messages
      (history_messages s ++ [{| role := role; content := content |}])%list s).

Definition add_chat (role content : string) : M unit :=
  modify (fun s =>
    set_chat_messages
      (chat_messages s ++ [{| role := role; content := content |}])%list s).

(** *** Lines 117-130 *)

Definition _generic_fallback_markdown : string := Py.strip GENERIC_FALLBACK_RAW.

(** *** Lines 136-191 *)

(** Lines 140-164 and 171-178: the prompt pair and the request built from
    the tech stack. *)
Definition questions_request (tech_stack : string) : Request :=
  let system_prompt := Py.strip GEN_SYSTEM_PROMPT_RAW in
  let user_prompt := "Candidate tech stack: " ++ tech_stack in
  {| model := "llama-3.1-8b-instant";
     messages := [ {| role := "system"; content := system_prompt |};
                   {| role := "user"; content := user_prompt |} ];
     temperature := (3 # 10)%Q |}.

Definition generate_technical_questions_markdown
    (client : option Client) (tech_stack : string) : M string :=
  emit (Invoked (GenerateQuestions tech_stack)) ;;
  match client with
  | None =>
      st_error MSG_GEN_NO_CLIENT ;;
      ret _generic_fallback_markdown
  | Some c =>
      resp <- create c (questions_request tech_stack) ;;
      match resp with
      | Completion text =>
          let content := Py.strip text in
          if negb (Py.contains "###" content) then
            st_warning MSG_GEN_BAD_FORMAT ;;
            ret _generic_fallback_markdown
          else ret content
      | Raised exc_type exc_text =>
          st_error MSG_GEN_API_FAILED ;;
          st_caption ("Details: " ++ exc_type ++ ": " ++ exc_text) ;;
          ret _generic_fallback_markdown
      end
  end.

(** *** Lines 197-256 *)

(** Lines 208-249: the prompt pair and the request built from the session
    state and the user's message. *)
Definition followup_request (s : SessionState) (user_input : string) : Request :=
  let tech_stack :=
    match candidate s with
    | Some p => tech_stack p
    | None => "N/A"
    end in
  let questions_md := Py.or_else (latest_questions s) "No questions." in
  let system_prompt := Py.strip FOLLOWUP_SYSTEM_PROMPT_RAW in
  let user_context :=
    Py.nl ++ "Candidate tech stack: " ++ tech_stack ++ Py.nl ++ Py.nl ++
    "Practice set you already generated:" ++ Py.nl ++ Py.nl ++
    questions_md ++ Py.nl ++ Py.nl ++
    "Candidate just asked:" ++ Py.nl ++ Py.nl ++
    user_input ++ Py.nl in
  {| model := "llama-3.1-8b-instant";
     messages := [ {| role := "system"; content := system_prompt |};
                   {| role := "user"; content := user_context |} ];
     temperature := (4 # 10)%Q |}.

Definition answer_followup (client : option Client) (user_input : string) : M string :=
  emit (Invoked (AnswerFollowup user_input)) ;;
  match client with
  | None => ret FOLLOWUP_NO_CLIENT
  | Some c =>
      s <- get ;;
      resp <- create c (followup_request s user_input) ;;
      match resp with
      | Completion text => ret (Py.strip text)
      | Raised exc_type _ => ret (FOLLOWUP_FAILED_PREFIX ++ exc_type ++ ")")
      end
  end.

(** *** Lines 262-288.  The function ends in [st.stop()]: nothing of the
    script runs after it. *)

Definition render_contact_form (a : Action) : M unit :=
  match contact_form a with
  | Some (name, email, message) =>
      if negb (Py.truthy name) || negb (Py.truthy email) || negb (Py.truthy message)
      then st_warning MSG_CONTACT_INCOMPLETE
      else
        st_success MSG_CONTACT_RECEIVED ;;
        modify (set_show_contact false)
  | None => ret tt
  end ;;
  when (st_button KeyClose a) (modify (set_show_contact false)).

(** *** Lines 294-357 *)

Definition render_intro (a : Action) : M unit :=
  when (st_button KeyContactIntro a) (modify (set_show_contact true)) ;;
  when (st_button KeyStart a)
    (modify (set_view Chat) ;;
     s <- get ;;
     match history_messages s with
     | [] => add_history "assistant" GREETING
     | _ :: _ => ret tt
     end).

(** *** Lines 363-540 *)

(** Lines 447-455. *)
Definition profile_of (f : FormInput) : CandidateProfile :=
  {| full_name := in_full_name f;
     email := in_email f;
     phone := in_phone f;
     years_experience := in_years_exp f;
     desired_position := in_desired_pos f;
     location := in_location f;
     tech_stack := in_tech_stack f |}.

(** Lines 424-469: the body of [if submitted:]. *)
Definition on_candidate_submit (client : option Client) (f : FormInput) : M unit :=
  let full_name := in_full_name f in
  let email := in_email f in
  let phone := in_phone f in
  let tech_stack := in_tech_stack f in
  if negb (Py.truthy full_name) || negb (Py.truthy email) || negb (Py.truthy tech_stack)
  then st_warning MSG_REQUIRED_FIELDS
  else
    if negb (Py.endswith (Py.lower email) "@gmail.com") then
      st_error MSG_BAD_EMAIL
    else if Py.truthy phone &&
            (negb (Py.isdigit phone) || negb (Nat.eqb (Py.len phone) 10)) then
      st_error MSG_BAD_PHONE
    else if negb (looks_like_tech_stack tech_stack) then
      st_error MSG_BAD_TECH_STACK
    else
      modify (set_candidate (Some (profile_of f))) ;;
      add_history "assistant"
        ("Got it, **" ++ full_name ++
         "**! I’ll generate a practice set based on your tech stack: `" ++
         tech_stack ++ "`.") ;;
      questions_md <- generate_technical_questions_markdown client tech_stack ;;
      modify (set_latest_questions questions_md) ;;
      modify (set_stage Questions).

(** Lines 490-538: the body of [if user_input:]. *)
Definition on_chat_input (client : option Client) (user_input : string) : M unit :=
  add_chat "user" user_input ;;
  if is_end_keyword user_input then
    add_chat "assistant" GOODBYE ;;
    modify (set_stage Ended)
  else
    s <- get ;;
    match stage s with
    | Ended => add_chat "assistant" SESSION_WRAPPED_UP
    | Form => add_chat "assistant" FILL_FORM_FIRST
    | Questions =>
        let lower_q := Py.lower user_input in
        if Py.any (fun k => Py.contains k lower_q) OUT_OF_SCOPE_KEYWORDS then
          add_chat "assistant" OUT_OF_SCOPE_REPLY
        else
          reply <- answer_followup client user_input ;;
          add_chat "assistant" reply
    end.

Definition render_chat (client : option Client) (a : Action) : M unit :=
  when (st_button KeyContactChat a) (modify (set_show_contact true)) ;;
  s <- get ;;
  when (existsb (Stage_eqb (stage s)) [Form; Questions])
    match candidate_form a with
    | Some f => on_candidate_submit client f
    | None => ret tt
    end ;;
  match st_chat_input a with
  | Some user_input =>
      if Py.truthy user_input then on_chat_input client user_input else ret tt
  | None => ret tt
  end.

(** *** Lines 12-24 and 546-552: one run of the script *)

Definition script (client : option Client) (a : Action) : M unit :=
  match client with
  | None => st_warning MSG_KEY_NOT_SET
  | Some _ => ret tt
  end ;;
  s <- get ;;
  if show_contact s then render_contact_form a
  else
    match view s with
    | Intro => render_intro a
    | Chat => render_chat client a
    end.

(** The session state after the run that action [a] triggers. *)
Definition start (s : SessionState) : World := {| session := s; events := [] |}.

Definition run (client : option Client) (a : Action) (s : SessionState) : SessionState :=
  session (exec (script client a) (start s)).

(** A session: the runs triggered by a sequence of actions, each with the
    client of its run. *)
Fixpoint runs (l : list (option Client * Action)) (s : SessionState) : SessionState :=
  match l with
  | [] => s
  | (client, a) :: l' => runs l' (run client a s)
  end.

(** The states a session can be in. *)
Inductive reachable : SessionState -> Prop :=
| reachable_initial : reachable initial_state
| reachable_run client a s : reachable s -> reachable (run client a s).

(** *** Reading the events of a run *)

(** The requests sent to the service. *)
Definition requests (l : list Event) : list Request :=
  flat_map (fun e => match e with Sent r => [r] | _ => [] end) l.

(** The calls of the gateway's functions. *)
Definition invocations (l : list Event) : list GatewayOp :=
  flat_map (fun e => match e with Invoked op => [op] | _ => [] end) l.

(* ===================================================================== *)
(** ** Vocabulary of the specification                                    *)
(* ===================================================================== *)

(** The letters, each with its capital. *)
Definition LETTERS : list (ascii * ascii) :=
  [("a", "A"); ("b", "B"); ("c", "C"); ("d", "D"); ("e", "E"); ("f", "F");
   ("g", "G"); ("h", "H"); ("i", "I"); ("j", "J"); ("k", "K"); ("l", "L");
   ("m", "M"); ("n", "N"); ("o", "O"); ("p", "P"); ("q", "Q"); ("r", "R");
   ("s", "S"); ("t", "T"); ("u", "U"); ("v", "V"); ("w", "W"); ("x", "X");
   ("y", "Y"); ("z", "Z")]%char.

(** The Kelvin sign U+212A in UTF-8: a capital of "k" for Unicode. *)
Definition KELVIN : string :=
  String "226" (String "132" (String "170" EmptyString)).

(** [reads_as piece phrase]: the piece is the phrase up to the case of its
    letters.  Character by character, it has the character of the phrase,
    or the capital of that letter, or the Kelvin sign for a "k". *)
Inductive reads_as : string -> string -> Prop :=
| reads_end : reads_as EmptyString EmptyString
| reads_same c piece phrase :
    reads_as piece phrase -> reads_as (String c piece) (String c phrase)
| reads_capital small capital piece phrase :
    In (small, capital) LETTERS ->
    reads_as piece phrase ->
    reads_as (String capital piece) (String small phrase)
| reads_kelvin piece phrase :
    reads_as piece phrase ->
    reads_as (KELVIN ++ piece) (String "k" phrase).

(** [k] occurs in [t] as a case-insensitive substring: some contiguous
    piece of [t] is [k] up to case. *)
Definition occurs_ignoring_case (k t : string) : Prop :=
  exists pre piece post,
    t = pre ++ piece ++ post /\ reads_as piece k.

(** A keyword as the script has them: small letters and spaces, not
    ending with an "i". *)
Definition plain_char (c : ascii) : bool :=
  existsb (Ascii.eqb c) (" "%char :: map fst LETTERS).

Fixpoint plain (k : string) : bool :=
  match k with
  | EmptyString => true
  | String c k' =>
      plain_char c &&
      match k' with
      | EmptyString => negb (Ascii.eqb c "i")
      | String _ _ => plain k'
      end
  end.

Definition keyword (k : string) : bool := Py.truthy k && plain k.

(** [t] contains one of the end-intent phrases. *)
Definition has_end_phrase (t : string) : Prop :=
  exists k, In k END_KEYWORDS /\ occurs_ignoring_case k t.

(** The reasons for which a profile submission is refused, as the
    specification lists them. *)
Definition required_field_missing (f : FormInput) : Prop :=
  in_full_name f = EmptyString \/ in_email f = EmptyString \/
  in_tech_stack f = EmptyString.

(** The test of line 433 fails. *)
Definition email_domain_wrong (f : FormInput) : Prop :=
  Py.endswith (Py.lower (in_email f)) "@gmail.com" = false.

(** The test of line 436 fails: a phone is given and it is not made of
    ten digits ([str.isdigit] and [len]). *)
Definition phone_malformed (f : FormInput) : Prop :=
  in_phone f <> EmptyString /\
  ~ (Py.isdigit (in_phone f) = true /\ Py.len (in_phone f) = 10).

Definition tech_stack_implausible (f : FormInput) : Prop :=
  looks_like_tech_stack (in_tech_stack f) = false.

Definition validation_fails (f : FormInput) : Prop :=
  required_field_missing f \/ email_domain_wrong f \/
  phone_malformed f \/ tech_stack_implausible f.

(** The chat handler answers [text] with the fixed [reply]: the user turn
    and the reply are appended to the live chat, nothing else of the session
    changes (the stage stays), and the run shows, calls and sends nothing. *)
Definition answers_with_fixed (reply : string) (client : option Client)
    (text : string) (s : SessionState) : Prop :=
  exec (render_chat client (ChatInput text)) (start s) =
  {| session :=
       set_chat_messages
         (chat_messages s ++ [ {| role := "user"; content := text |};
                               {| role := "assistant"; content := reply |} ])%list s;
     events := [] |}.

(** The four checks of lines 426-439, in one boolean. *)
Definition refused (f : FormInput) : bool :=
  (negb (Py.truthy (in_full_name f)) || negb (Py.truthy (in_email f)) ||
   negb (Py.truthy (in_tech_stack f))) ||
  negb (Py.endswith (Py.lower (in_email f)) "@gmail.com") ||
  (Py.truthy (in_phone f) &&
   (negb (Py.isdigit (in_phone f)) || negb (Nat.eqb (Py.len (in_phone f)) 10))) ||
  negb (looks_like_tech_stack (in_tech_stack f)).

(** What every run keeps, unless it accepts a profile: the candidate and
    the latest questions, and the stage unless the run ends the session. *)
Definition keeps_profile (s s' : SessionState) : Prop :=
  candidate s' = candidate s /\
  latest_questions s' = latest_questions s /\
  (stage s' = stage s \/ stage s' = Ended).

(** The text of the generic fallback: one General section of four
    questions, and one Mini Assignment. *)
Definition GENERIC_FALLBACK_TEXT : string :=
  "### General

1. Tell me about a recent project you worked on and what your role was.
2. How do you usually debug and fix tricky issues in your code?
3. How do you keep yourself updated with new tools, frameworks, or libraries?
4. Describe a situation where you had to learn a new technology quickly.

**Mini Assignment:**  
Pick one of your past projects and refactor it to improve code readability and structure.  
Write down what you improved and why.".

(** *** Sample sessions and profiles, for the examples *)

(** The session after the welcome button: the form is on screen. *)
Definition at_form : SessionState := run None StartClick initial_state.

(** The session after the welcome button and a goodbye: the stage is
    "ended" and no profile was ever submitted. *)
Definition ended_without_profile : SessionState :=
  runs [(None, StartClick); (None, ChatInput "bye")] initial_state.

(** Two profiles that pass validation. *)
Definition profile_asha : FormInput :=
  {| in_full_name := "Asha"; in_email := "asha@gmail.com";
     in_phone := "9876543210"; in_years_exp := 2; in_desired_pos := "Backend";
     in_location := "Pune"; in_tech_stack := "Python, SQL" |}.

Definition profile_ravi : FormInput :=
  {| in_full_name := "Ravi"; in_email := "ravi@gmail.com";
     in_phone := EmptyString; in_years_exp := 5; in_desired_pos := "DevOps";
     in_location := "Mysuru"; in_tech_stack := "Docker, Kubernetes" |}.

(** *** Vocabulary of the further properties *)

(** [t] mentions one of the known technologies. *)
Definition has_tech_keyword (t : string) : Prop :=
  exists k, In k KNOWN_TECH_KEYWORDS /\ occurs_ignoring_case k t.

(** The test of line 525 on a chat message. *)
Definition is_out_of_scope (text : string) : bool :=
  let lower_q := Py.lower text in
  Py.any (fun k => Py.contains k lower_q) OUT_OF_SCOPE_KEYWORDS.

(** The first history message, lines 346-355. *)
Definition greeting_message : Message :=
  {| role := "assistant"; content := GREETING |}.

(** The history message of an accepted profile, lines 457-463. *)
Definition confirmation_message (f : FormInput) : Message :=
  {| role := "assistant";
     content :=
       "Got it, **" ++ in_full_name f ++
       "**! I’ll generate a practice set based on your tech stack: `" ++
       in_tech_stack f ++ "`." |}.

Definition user_turn (text : string) : Message :=
  {| role := "user"; content := text |}.

Definition assistant_turn (text : string) : Message :=
  {| role := "assistant"; content := text |}.

(** A chat log made of exchanges: a user turn that is not empty, then the
    assistant's reply. *)
Fixpoint exchanges (l : list Message) : Prop :=
  match l with
  | [] => True
  | u :: a :: rest =>
      role u = "user" /\ content u <> EmptyString /\
      role a = "assistant" /\ exchanges rest
  | _ => False
  end.

(** The order in which a session goes through the stages. *)
Definition stage_rank (g : Stage) : nat :=
  match g with
  | Form => 0
  | Questions => 1
  | Ended => 2
  end.

(** The events with which a run starts: the warning of lines 16-21. *)
Definition setup_events (client : option Client) : list Event :=
  match client with
  | None => [Shown Warning MSG_KEY_NOT_SET]
  | Some _ => []
  end.

(** The events of one run. *)
Definition run_events (client : option Client) (a : Action) (s : SessionState) : list Event :=
  events (exec (script client a) (start s)).

(** The effects that one run can have on the session state, read off the
    three views; [run_transition] shows that every run has one of them. *)
Inductive transition (s : SessionState) : SessionState -> Prop :=
| t_none : transition s s
| t_contact (b : bool) : transition s (set_show_contact b s)
| t_start_again :
    view s = Intro -> show_contact s = false -> history_messages s <> [] ->
    transition s (set_view Chat s)
| t_start :
    view s = Intro -> show_contact s = false -> history_messages s = [] ->
    transition s (set_history_messages [greeting_message] (set_view Chat s))
| t_accept (f : FormInput) (questions_md : string) :
    view s = Chat -> show_contact s = false -> stage s <> Ended ->
    ~ validation_fails f ->
    Py.contains "###" questions_md = true ->
    transition s
      (set_stage Questions
         (set_latest_questions questions_md
            (set_history_messages
               (history_messages s ++ [confirmation_message f])%list
               (set_candidate (Some (profile_of f)) s))))
| t_reply (text reply : string) :
    view s = Chat -> show_contact s = false ->
    text <> EmptyString -> is_end_keyword text = false ->
    transition s
      (set_chat_messages
         (chat_messages s ++ [user_turn text; assistant_turn reply])%list s)
| t_goodbye (text : string) :
    view s = Chat -> show_contact s = false ->
    text <> EmptyString -> is_end_keyword text = true ->
    transition s
      (set_stage Ended
         (set_chat_messages
            (chat_messages s ++ [user_turn text; assistant_turn GOODBYE])%list s)).

(** What holds of the session state all along a session. *)
Record consistent (s : SessionState) : Prop := {
  inv_intro :
    view s = Intro ->
    history_messages s = [] /\ chat_messages s = [] /\ stage s = Form;
  inv_history :
    view s = Chat ->
    exists confirmations,
      history_messages s = greeting_message :: confirmations /\
      Forall (fun m => exists f, ~ validation_fails f /\
                                 m = confirmation_message f) confirmations;
  inv_form :
    stage s = Form -> candidate s = None /\ latest_questions s = EmptyString;
  inv_questions :
    stage s = Questions ->
    candidate s <> None /\ latest_questions s <> EmptyString;
  inv_candidate :
    forall p, candidate s = Some p ->
    exists f, p = profile_of f /\ ~ validation_fails f;
  inv_latest :
    latest_questions s = EmptyString \/
    Py.contains "###" (latest_questions s) = true;
  inv_chat : exchanges (chat_messages s)
}.

(* ===================================================================== *)
(** ** Strings                                                            *)
(* ===================================================================== *)

Lemma prefix_spec (k t : string) :
  String.prefix k t = true <-> exists post, t = k ++ post.
Proof.
  revert t. induction k as [|x k IH]; intros t.
  - destruct t; simpl; (split; [intros _; eexists; reflexivity | reflexivity]).
  - destruct t as [|y t]; simpl.
    + split; [discriminate | intros [post H]; discriminate].
    + destruct (ascii_dec x y) as [->|Hne].
      * rewrite IH. split; intros [post H]; exists post.
        -- now rewrite H.
        -- now injection H.
      * split; [discriminate | intros [post H]; injection H; congruence].
Qed.

Lemma contains_cons (k : string) (y : ascii) (t : string) :
  Py.contains k (String y t) = String.prefix k (String y t) || Py.contains k t.
Proof. reflexivity. Qed.

Lemma contains_spec (k t : string) :
  Py.contains k t = true <-> exists pre post, t = pre ++ k ++ post.
Proof.
  induction t as [|y t IH].
  - destruct k as [|x k]; simpl; split; try discriminate.
    + intros _. now exists EmptyString, EmptyString.
    + reflexivity.
    + intros [pre [post H]]. destruct pre; discriminate.
  - rewrite contains_cons, orb_true_iff, prefix_spec, IH. split.
    + intros [[post H] | [pre [post H]]].
      * now exists EmptyString, post.
      * exists (String y pre), post. simpl. now rewrite H.
    + intros [pre [post H]]. destruct pre as [|z pre]; simpl in H.
      * left. now exists post.
      * right. exists pre, post. now injection H.
Qed.

Lemma truthy_iff (s : string) : Py.truthy s = true <-> s <> EmptyString.
Proof. destruct s; simpl; split; congruence. Qed.

Lemma truthy_false_iff (s : string) : Py.truthy s = false <-> s = EmptyString.
Proof. destruct s; simpl; split; congruence. Qed.

Lemma contains_nonempty (k t : string) :
  k <> EmptyString -> Py.contains k t = true -> t <> EmptyString.
Proof.
  intros Hk H ->. simpl in H. destruct k; [congruence | discriminate].
Qed.

(** *** Lowering, one character at a time *)

Lemma lower_kelvin (r : string) :
  Py.lower (KELVIN ++ r) = String "k" (Py.lower r).
Proof. reflexivity. Qed.

Lemma lower_dotted_I (r : string) :
  Py.lower (String "196" (String "176" r)) =
  String "i" (String "204" (String "135" (Py.lower r))).
Proof. reflexivity. Qed.

(** A byte that starts neither of the two special characters is lowered on
    its own. *)
Lemma lower_single (c : ascii) (r : string) :
  Ascii.eqb c "226" = false -> Ascii.eqb c "196" = false ->
  Py.lower (String c r) = String (Py.lower_char c) (Py.lower r).
Proof.
  intros H1 H2. cbn [Py.lower]. unfold Py.is_dotted_I, Py.is_kelvin.
  rewrite H1, H2. cbn. destruct r as [|d [|e r2]]; reflexivity.
Qed.

(** The three ways in which [lower] consumes the start of a string. *)
Inductive lower_view : string -> Prop :=
| lv_empty : lower_view EmptyString
| lv_kelvin r : lower_view (KELVIN ++ r)
| lv_dotted_I r : lower_view (String "196" (String "176" r))
| lv_single c r :
    Py.lower (String c r) = String (Py.lower_char c) (Py.lower r) ->
    lower_view (String c r).

Lemma lower_cases (t : string) : lower_view t.
Proof.
  destruct t as [|c r]; [constructor|].
  destruct r as [|d r1].
  { now apply lv_single. }
  destruct (Py.is_dotted_I c d) eqn:Ei.
  { unfold Py.is_dotted_I in Ei. apply andb_true_iff in Ei as [E1 E2].
    apply Ascii.eqb_eq in E1, E2. subst. apply lv_dotted_I. }
  destruct r1 as [|e r2].
  { apply lv_single. cbn [Py.lower]. now rewrite Ei. }
  destruct (Py.is_kelvin c d e) eqn:Ek.
  { unfold Py.is_kelvin in Ek. apply andb_true_iff in Ek as [E12 E3].
    apply andb_true_iff in E12 as [E1 E2].
    apply Ascii.eqb_eq in E1, E2, E3. subst. apply lv_kelvin. }
  apply lv_single. cbn [Py.lower]. now rewrite Ei, Ek.
Qed.

(** Induction on a string along the steps of [lower]. *)
Lemma lower_ind (P : string -> Prop) :
  P EmptyString ->
  (forall r, P r -> P (KELVIN ++ r)) ->
  (forall r, P r -> P (String "196" (String "176" r))) ->
  (forall c r,
     Py.lower (String c r) = String (Py.lower_char c) (Py.lower r) ->
     P r -> P (String c r)) ->
  forall t, P t.
Proof.
  intros H0 Hk Hi Hs t.
  assert (H : forall n t, String.length t <= n -> P t).
  { clear t. induction n as [|n IH]; intros t Hn.
    - destruct t; [exact H0 | cbn in Hn; lia].
    - destruct (lower_cases t) as [| r | r | c r E].
      + exact H0.
      + apply Hk, IH. cbn in Hn. lia.
      + apply Hi, IH. cbn in Hn. lia.
      + apply Hs; [exact E|]. apply IH. cbn in Hn. lia. }
  now apply (H (String.length t)).
Qed.

(** *** The characters of a keyword *)

Lemma plain_char_cases (c : ascii) :
  plain_char c = true -> In c (" "%char :: map fst LETTERS).
Proof.
  unfold plain_char. intros H.
  apply existsb_exists in H. destruct H as [x [Hin Hx]].
  apply Ascii.eqb_eq in Hx. now subst.
Qed.

(** A character of a keyword is lowered to itself and starts none of the
    special characters, nor continues one. *)
Lemma plain_char_lower (c : ascii) :
  plain_char c = true ->
  Py.lower_char c = c /\
  Ascii.eqb c "226" = false /\ Ascii.eqb c "196" = false /\
  Ascii.eqb c "204" = false.
Proof.
  intros H. apply plain_char_cases in H. cbn in H.
  repeat (destruct H as [<- | H]; [now repeat split|]). destruct H.
Qed.

Lemma LETTERS_lower (small capital : ascii) :
  In (small, capital) LETTERS ->
  Py.lower_char capital = small /\
  Ascii.eqb capital "226" = false /\ Ascii.eqb capital "196" = false.
Proof.
  cbn. intros H.
  repeat (destruct H as [H | H];
          [injection H as <- <-; now repeat split|]).
  destruct H.
Qed.

(** A character that is lowered to a character of a keyword is that
    character or its capital. *)
Lemma lower_char_plain (c : ascii) :
  plain_char (Py.lower_char c) = true ->
  c = Py.lower_char c \/ In (Py.lower_char c, c) LETTERS.
Proof.
  destruct c as [[] [] [] [] [] [] [] []]; intros H;
    try discriminate H; try (now left); right; cbn; tauto.
Qed.

Lemma plain_tail (c : ascii) (k : string) :
  plain (String c k) = true -> plain_char c = true /\ plain k = true.
Proof.
  cbn. intros H. apply andb_true_iff in H as [H1 H2].
  split; [exact H1|]. now destruct k.
Qed.

Lemma prefix_cons (a b : ascii) (k s : string) :
  String.prefix (String a k) (String b s) = true <->
  a = b /\ String.prefix k s = true.
Proof.
  cbn. destruct (ascii_dec a b) as [->|Hne]; [tauto|].
  split; [discriminate | intros [H _]; contradiction].
Qed.

(** *** A keyword found in the lowered text is in the text, up to case *)

Lemma prefix_lower_reads (k : string) :
  plain k = true ->
  forall t,
    String.prefix k (Py.lower t) = true ->
    exists piece post, t = piece ++ post /\ reads_as piece k.
Proof.
  induction k as [|c0 k IH]; intros Hk t Hp.
  - exists EmptyString, t. split; [reflexivity | constructor].
  - destruct (plain_tail _ _ Hk) as [Hc0 Hk'].
    destruct (lower_cases t) as [| r | r | c r E].
    + discriminate Hp.
    + rewrite lower_kelvin in Hp. apply prefix_cons in Hp as [-> Hp].
      destruct (IH Hk' r Hp) as [piece [post [-> Hr]]].
      exists (KELVIN ++ piece), post. split; [reflexivity|].
      now apply reads_kelvin.
    + rewrite lower_dotted_I in Hp. apply prefix_cons in Hp as [-> Hp].
      destruct k as [|c1 k]; [discriminate Hk|].
      apply prefix_cons in Hp as [-> _].
      destruct (plain_tail _ _ Hk') as [Hc1 _]. discriminate Hc1.
    + rewrite E in Hp. apply prefix_cons in Hp as [-> Hp].
      destruct (IH Hk' r Hp) as [piece [post [-> Hr]]].
      exists (String c piece), post. split; [reflexivity|].
      destruct (lower_char_plain c Hc0) as [Hsame | Hcap].
      * rewrite <- Hsame. now apply reads_same.
      * now apply reads_capital.
Qed.

Lemma occurs_after (k pre t : string) :
  occurs_ignoring_case k t -> occurs_ignoring_case k (pre ++ t).
Proof.
  intros [p [piece [post [-> H]]]]. exists (pre ++ p), piece, post.
  split; [|exact H].
  induction pre as [|x pre IH]; cbn; [reflexivity | now rewrite IH].
Qed.

Lemma contains_lower_occurs (k : string) :
  keyword k = true ->
  forall t, Py.contains k (Py.lower t) = true -> occurs_ignoring_case k t.
Proof.
  intros Hkw. apply andb_true_iff in Hkw as [Hne Hk].
  destruct k as [|c0 k]; [discriminate Hne|]. clear Hne.
  destruct (plain_tail _ _ Hk) as [Hc0 _].
  assert (Hhere : forall t,
            String.prefix (String c0 k) (Py.lower t) = true ->
            occurs_ignoring_case (String c0 k) t).
  { intros t Hp. destruct (prefix_lower_reads _ Hk t Hp) as [piece [post [-> Hr]]].
    now exists EmptyString, piece, post. }
  intros t. induction t as [| r IH | r IH | c r E IH] using lower_ind; intros H.
  - discriminate H.
  - rewrite lower_kelvin in H. rewrite contains_cons in H.
    apply orb_true_iff in H as [H|H].
    + apply Hhere. now rewrite lower_kelvin.
    + apply occurs_after. now apply IH.
  - pose proof H as H0. rewrite lower_dotted_I in H.
    rewrite !contains_cons in H.
    apply orb_true_iff in H as [H|H].
    + apply Hhere. now rewrite lower_dotted_I.
    + apply orb_true_iff in H as [H|H].
      { apply prefix_cons in H as [-> _]. discriminate Hc0. }
      apply orb_true_iff in H as [H|H].
      { apply prefix_cons in H as [-> _]. discriminate Hc0. }
      apply (occurs_after _ (String "196" (String "176" EmptyString)) r).
      now apply IH.
  - pose proof H as H0. rewrite E, contains_cons in H.
    apply orb_true_iff in H as [H|H].
    + apply Hhere. now rewrite E.
    + apply (occurs_after _ (String c EmptyString) r). now apply IH.
Qed.

(** *** A keyword in the text, up to case, is found in the lowered text *)

Lemma reads_lower (piece k : string) :
  plain k = true ->
  reads_as piece k ->
  forall post, Py.lower (piece ++ post) = k ++ Py.lower post.
Proof.
  intros Hk Hr. induction Hr as [| c piece k Hr IH | small capital piece k Hin Hr IH
                                 | piece k Hr IH]; intros post.
  - reflexivity.
  - destruct (plain_tail _ _ Hk) as [Hc Hk'].
    destruct (plain_char_lower c Hc) as [Hl [H1 [H2 _]]].
    cbn [append]. rewrite (lower_single c _ H1 H2), Hl, (IH Hk'). reflexivity.
  - destruct (plain_tail _ _ Hk) as [Hc Hk'].
    destruct (LETTERS_lower _ _ Hin) as [Hl [H1 H2]].
    cbn [append]. rewrite (lower_single capital _ H1 H2), Hl, (IH Hk'). reflexivity.
  - destruct (plain_tail _ _ Hk) as [Hc Hk'].
    change ((KELVIN ++ piece) ++ post) with (KELVIN ++ (piece ++ post)).
    rewrite lower_kelvin, (IH Hk'). reflexivity.
Qed.

(** Text before a keyword cannot hide it: the lowered text ends with the
    lowering of what starts at the keyword. *)
Lemma lower_before (c : ascii) (q : string) :
  plain_char c = true \/ (exists small, In (small, c) LETTERS) \/ c = "226"%char ->
  forall pre, exists x, Py.lower (pre ++ String c q) = x ++ Py.lower (String c q).
Proof.
  intros Hc.
  assert (Hn : Ascii.eqb c "176" = false /\ Ascii.eqb c "132" = false /\
               Ascii.eqb c "170" = false).
  { destruct Hc as [Hc | [[small Hc] | ->]]; [| |now repeat split].
    - apply plain_char_cases in Hc. cbn in Hc.
      repeat (destruct Hc as [<- | Hc]; [now repeat split|]). destruct Hc.
    - cbn in Hc.
      repeat (destruct Hc as [Hc | Hc];
              [injection Hc as <- <-; now repeat split|]).
      destruct Hc. }
  destruct Hn as [N1 [N2 N3]].
  assert (H : forall n pre, String.length pre <= n ->
            exists x, Py.lower (pre ++ String c q) = x ++ Py.lower (String c q)).
  { induction n as [|n IH]; intros pre Hn.
    - destruct pre; [now exists EmptyString | cbn in Hn; lia].
    - destruct pre as [|a pre]; [now exists EmptyString|].
      destruct pre as [|b pre].
      + (* one byte before: it cannot join with [c] *)
        exists (String (Py.lower_char a) EmptyString).
        cbn [append Py.lower]. unfold Py.is_dotted_I, Py.is_kelvin.
        rewrite N1, andb_false_r.
        destruct q as [|e q]; [reflexivity|].
        now rewrite N2, andb_false_r.
      + destruct (Py.is_dotted_I a b) eqn:Ei.
        * destruct (IH pre) as [x Hx]; [cbn in Hn; lia|].
          exists (String "i" (String "204" (String "135" x))).
          cbn [append Py.lower]. rewrite Ei. cbn [append] in Hx.
          now rewrite Hx.
        * destruct pre as [|d pre].
          -- (* two bytes before *)
             destruct (IH (String b EmptyString)) as [x Hx]; [cbn in Hn; cbn; lia|].
             exists (String (Py.lower_char a) x).
             cbn [append] in Hx |- *.
             assert (Ek : Py.is_kelvin a b c = false).
             { unfold Py.is_kelvin. now rewrite N3, andb_false_r. }
             cbn [Py.lower]. rewrite Ei, Ek. cbn [Py.lower] in Hx.
             now rewrite Hx.
          -- destruct (Py.is_kelvin a b d) eqn:Ek.
             ++ destruct (IH pre) as [x Hx]; [cbn in Hn; lia|].
                exists (String "k" x). cbn [append Py.lower].
                rewrite Ei, Ek. cbn [append] in Hx. now rewrite Hx.
             ++ destruct (IH (String b (String d pre))) as [x Hx];
                  [cbn in Hn; cbn; lia|].
                exists (String (Py.lower_char a) x). cbn [append] in Hx |- *.
                cbn [Py.lower]. rewrite Ei, Ek. cbn [Py.lower] in Hx.
                now rewrite Hx. }
  intros pre. now apply (H (String.length pre)).
Qed.

Lemma reads_first (piece k : string) :
  reads_as piece k -> k <> EmptyString ->
  exists c q, piece = String c q /\
    (c = match k with String c0 _ => c0 | EmptyString => c end \/
     (exists small, In (small, c) LETTERS) \/ c = "226"%char).
Proof.
  intros Hr Hne. destruct Hr as [| c piece k Hr | small capital piece k Hin Hr
                                 | piece k Hr]; [congruence | | |].
  - exists c, piece. split; [reflexivity | now left].
  - exists capital, piece. split; [reflexivity|]. right; left. now exists small.
  - eexists _, _. split; [reflexivity|]. now right; right.
Qed.

Lemma occurs_contains_lower (k t : string) :
  keyword k = true ->
  occurs_ignoring_case k t -> Py.contains k (Py.lower t) = true.
Proof.
  intros Hkw [pre [piece [post [-> Hr]]]].
  apply andb_true_iff in Hkw as [Hne Hk]. apply truthy_iff in Hne.
  destruct (reads_first _ _ Hr Hne) as [c [q [-> Hc]]].
  assert (Hc' : plain_char c = true \/ (exists small, In (small, c) LETTERS)
                \/ c = "226"%char).
  { destruct Hc as [-> | Hc]; [|now right].
    destruct k as [|c0 k]; [congruence|].
    left. now destruct (plain_tail _ _ Hk). }
  destruct (lower_before c (q ++ post) Hc' pre) as [x Hx].
  change (String c q ++ post) with (String c (q ++ post)).
  rewrite Hx. apply contains_spec. exists x, (Py.lower post).
  change (String c (q ++ post)) with (String c q ++ post).
  now rewrite (reads_lower _ _ Hk Hr).
Qed.

(** Looking for lower-case keywords in the lowered text finds exactly the
    keywords that occur in the text up to case. *)
Lemma any_contains_lower_iff (kws : list string) (text : string) :
  forallb keyword kws = true ->
  Py.any (fun k => Py.contains k (Py.lower text)) kws = true <->
  exists k, In k kws /\ occurs_ignoring_case k text.
Proof.
  intros Hkws. rewrite forallb_forall in Hkws.
  unfold Py.any. rewrite existsb_exists.
  split; intros [k [Hin H]]; exists k; (split; [exact Hin|]).
  - now apply (contains_lower_occurs k (Hkws k Hin)).
  - now apply occurs_contains_lower; [apply Hkws|].
Qed.

(** The validators on a few inputs. *)
Example is_end_keyword_upper : is_end_keyword "Ok, BYE now" = true.
Proof. reflexivity. Qed.

Example is_end_keyword_inside_word : is_end_keyword "unstoppable" = true.
Proof. reflexivity. Qed.

Example is_end_keyword_none : is_end_keyword "explain question 2" = false.
Proof. reflexivity. Qed.

Example looks_like_tech_stack_list : looks_like_tech_stack "Python, React, SQL" = true.
Proof. reflexivity. Qed.

Example looks_like_tech_stack_sentence : looks_like_tech_stack "I like cooking" = false.
Proof. reflexivity. Qed.

Example strip_both_ends : Py.strip ("  a b " ++ Py.nl) = "a b".
Proof. reflexivity. Qed.

Example isdigit_empty : Py.isdigit EmptyString = false.
Proof. reflexivity. Qed.

(** The Kelvin sign lowers to "k", in the end-intent phrases and in the
    technology keywords alike. *)
Example is_end_keyword_kelvin : is_end_keyword ("THAN" ++ KELVIN ++ "S") = true.
Proof. reflexivity. Qed.

Example looks_like_tech_stack_kelvin : looks_like_tech_stack (KELVIN ++ "otlin") = true.
Proof. reflexivity. Qed.

(** The capital I with a dot lowers to "i" and a combining dot, which
    breaks a phrase with an "i" inside. *)
Example is_end_keyword_dotted_I :
  is_end_keyword ("EX" ++ String "196" (String "176" "T")) = false.
Proof. reflexivity. Qed.

(** Ten times the superscript two (U+00B2, two bytes each) are ten digits
    for [str.isdigit] and [len]; ten bytes of other text are not. *)
Example isdigit_superscript_two :
  let two := String "194" (String "178" EmptyString) in
  let phone := two ++ two ++ two ++ two ++ two ++ two ++ two ++ two ++ two ++ two in
  Py.isdigit phone = true /\ Py.len phone = 10 /\ String.length phone = 20.
Proof. cbv zeta. repeat split; reflexivity. Qed.

Example isdigit_letters : Py.isdigit "12345abcde" = false.
Proof. reflexivity. Qed.

(** The no-break space U+00A0 and the ideographic space U+3000 are white
    space for [str.strip]. *)
Example strip_unicode_space :
  Py.strip (String "194" (String "160" "### Q") ++
            String "227" (String "128" (String "128" EmptyString))) = "### Q".
Proof. reflexivity. Qed.

Lemma is_end_keyword_iff (text : string) :
  is_end_keyword text = true <-> has_end_phrase text.
Proof.
  unfold is_end_keyword, has_end_phrase.
  apply any_contains_lower_iff. reflexivity.
Qed.


(* ===================================================================== *)
(** ** The gateway                                                        *)
(* ===================================================================== *)

Lemma fallback_text : _generic_fallback_markdown = GENERIC_FALLBACK_TEXT.
Proof. reflexivity. Qed.

Lemma fallback_has_section : Py.contains "###" _generic_fallback_markdown = true.
Proof. reflexivity. Qed.

Lemma requests_app (l1 l2 : list Event) :
  requests (l1 ++ l2) = (requests l1 ++ requests l2)%list.
Proof. apply flat_map_app. Qed.

(** C6: without a client, [generate_technical_questions_markdown] returns
    the generic fallback markdown and [answer_followup] returns its fixed
    apology, which is another string; neither sends a request to the
    service nor changes the session, whatever the input. *)
Theorem gateway_without_client (tech_stack user_input : string) (w : World) :
  (result (generate_technical_questions_markdown None tech_stack) w
     = _generic_fallback_markdown /\
   session (exec (generate_technical_questions_markdown None tech_stack) w)
     = session w /\
   requests (events (exec (generate_technical_questions_markdown None tech_stack) w))
     = requests (events w)) /\
  (result (answer_followup None user_input) w = FOLLOWUP_NO_CLIENT /\
   session (exec (answer_followup None user_input) w) = session w /\
   requests (events (exec (answer_followup None user_input) w))
     = requests (events w)) /\
  FOLLOWUP_NO_CLIENT <> _generic_fallback_markdown.
Proof.
  repeat split; try reflexivity.
  - cbn. rewrite !requests_app. cbn. now rewrite !app_nil_r.
  - cbn. rewrite !requests_app. cbn. now rewrite !app_nil_r.
  - discriminate.
Qed.

(** The value of [generate_technical_questions_markdown] with a client, by
    the outcome of the call. *)
Lemma generate_result (c : Client) (tech_stack : string) (w : World) :
  result (generate_technical_questions_markdown (Some c) tech_stack) w =
  match c (questions_request tech_stack) with
  | Completion text =>
      if Py.contains "###" (Py.strip text) then Py.strip text
      else _generic_fallback_markdown
  | Raised _ _ => _generic_fallback_markdown
  end.
Proof.
  unfold result, generate_technical_questions_markdown. cbn.
  destruct (c (questions_request tech_stack)) as [text | ty tx]; cbn.
  - destruct (Py.contains "###" (Py.strip text)); reflexivity.
  - reflexivity.
Qed.

(** The session state is not touched by the gateway. *)
Lemma generate_session (client : option Client) (tech_stack : string) (w : World) :
  session (exec (generate_technical_questions_markdown client tech_stack) w) = session w.
Proof.
  unfold exec, generate_technical_questions_markdown.
  destruct client as [c|]; cbn; [|reflexivity].
  destruct (c (questions_request tech_stack)) as [text | ty tx]; cbn.
  - destruct (Py.contains "###" (Py.strip text)); reflexivity.
  - reflexivity.
Qed.

(** Whatever the client and the service do, the caller receives markdown
    with a section in it, hence a non-empty string. *)
Lemma generate_has_section (client : option Client) (tech_stack : string) (w : World) :
  Py.contains "###"
    (result (generate_technical_questions_markdown client tech_stack) w) = true.
Proof.
  destruct client as [c|]; [|reflexivity].
  rewrite generate_result.
  destruct (c (questions_request tech_stack)) as [text | ty tx].
  - destruct (Py.contains "###" (Py.strip text)) eqn:E; [exact E | reflexivity].
  - reflexivity.
Qed.

Lemma generate_nonempty (client : option Client) (tech_stack : string) (w : World) :
  result (generate_technical_questions_markdown client tech_stack) w <> EmptyString.
Proof.
  apply contains_nonempty with (k := "###"); [discriminate|].
  apply generate_has_section.
Qed.

(** C7: when the call succeeds and the stripped response text has no "###"
    in it, [generate_technical_questions_markdown] returns the fixed generic
    fallback (the General section of four questions and one Mini
    Assignment) and not the text received; it returns the same fallback when
    the call raises an exception. *)
Theorem generate_falls_back (c : Client) (tech_stack : string) (w : World) :
  (forall text,
     c (questions_request tech_stack) = Completion text ->
     Py.contains "###" (Py.strip text) = false ->
     result (generate_technical_questions_markdown (Some c) tech_stack) w
       = GENERIC_FALLBACK_TEXT /\
     Py.strip text <> GENERIC_FALLBACK_TEXT) /\
  (forall exc_type exc_text,
     c (questions_request tech_stack) = Raised exc_type exc_text ->
     result (generate_technical_questions_markdown (Some c) tech_stack) w
       = GENERIC_FALLBACK_TEXT).
Proof.
  split.
  - intros text Hc Hno. rewrite generate_result, Hc, Hno. split; [reflexivity|].
    intros Heq. rewrite Heq in Hno. discriminate Hno.
  - intros ty tx Hc. now rewrite generate_result, Hc.
Qed.

Lemma generate_falls_back_witness :
  (result (generate_technical_questions_markdown
             (Some (fun _ => Completion " Here are some questions. ")) "Java, Docker")
          (start initial_state) = GENERIC_FALLBACK_TEXT /\
   Py.strip " Here are some questions. " <> GENERIC_FALLBACK_TEXT) /\
  result (generate_technical_questions_markdown
            (Some (fun _ => Raised "APIConnectionError" "Connection error.")) "Java, Docker")
         (start initial_state) = GENERIC_FALLBACK_TEXT.
Proof.
  split.
  - apply (proj1 (generate_falls_back _ "Java, Docker" (start initial_state))
             " Here are some questions. "); reflexivity.
  - apply (proj2 (generate_falls_back _ "Java, Docker" (start initial_state))
             "APIConnectionError" "Connection error."); reflexivity.
Defined.

(* ===================================================================== *)
(** ** The chat handler                                                   *)
(* ===================================================================== *)

Arguments is_end_keyword : simpl never.
Arguments looks_like_tech_stack : simpl never.
Arguments Py.any : simpl never.
Arguments Py.lower : simpl never.
Arguments Py.strip : simpl never.
Arguments Py.endswith : simpl never.
Arguments Py.isdigit : simpl never.
Arguments Py.len : simpl never.
Arguments questions_request : simpl never.
Arguments followup_request : simpl never.

Lemma is_end_keyword_nonempty (text : string) :
  is_end_keyword text = true -> text <> EmptyString.
Proof. intros H ->. discriminate H. Qed.

(** In a run triggered by a chat message, [render_chat] comes down to the
    handler of the message. *)
Lemma render_chat_on_chat (client : option Client) (text : string) (w : World) :
  render_chat client (ChatInput text) w =
  if Py.truthy text then on_chat_input client text w else (tt, w).
Proof.
  unfold render_chat, bind, when, get, ret. cbn.
  destruct (stage (session w)); cbn; destruct (Py.truthy text); reflexivity.
Qed.

Lemma append_two {A} (l : list A) (x y : A) :
  ((l ++ [x]) ++ [y] = l ++ [x; y])%list.
Proof. now rewrite <- app_assoc. Qed.

(** An end-intent message, at any stage. *)
Lemma on_chat_input_end (client : option Client) (text : string) (s : SessionState) :
  is_end_keyword text = true ->
  exec (on_chat_input client text) (start s) =
  {| session :=
       set_stage Ended
         (set_chat_messages
            (chat_messages s ++ [ {| role := "user"; content := text |};
                                  {| role := "assistant"; content := GOODBYE |} ])%list s);
     events := [] |}.
Proof.
  intros H. unfold exec, on_chat_input, bind. cbn. rewrite H. cbn.
  now rewrite append_two.
Qed.

(** Any other message, at the stages where the reply is a fixed text. *)
Lemma on_chat_input_fixed (client : option Client) (text : string) (s : SessionState) :
  is_end_keyword text = false ->
  stage s <> Questions ->
  exec (on_chat_input client text) (start s) =
  {| session :=
       set_chat_messages
         (chat_messages s ++
            [ {| role := "user"; content := text |};
              {| role := "assistant";
                 content := match stage s with
                            | Form => FILL_FORM_FIRST
                            | _ => SESSION_WRAPPED_UP
                            end |} ])%list s;
     events := [] |}.
Proof.
  intros H Hq. unfold exec, on_chat_input, bind. cbn. rewrite H. cbn.
  destruct (stage s) eqn:E; cbn; try congruence; now rewrite append_two.
Qed.

Lemma render_chat_nonempty_chat (client : option Client) (text : string)
    (s : SessionState) :
  text <> EmptyString ->
  exec (render_chat client (ChatInput text)) (start s) =
  exec (on_chat_input client text) (start s).
Proof.
  intros Hne. unfold exec. rewrite render_chat_on_chat.
  apply truthy_iff in Hne. now rewrite Hne.
Qed.

(** C10: a chat input that satisfies [is_end_keyword] (it is then not
    empty) makes the handler append the user turn and the fixed goodbye
    message to the live chat and set the stage to "ended", whatever the
    stage was; nothing else of the session changes, and the run shows
    nothing, calls no gateway function and sends no request. *)
Theorem end_intent_at_any_stage (client : option Client) (text : string)
    (s : SessionState) :
  is_end_keyword text = true ->
  text <> EmptyString /\
  let w' := exec (render_chat client (ChatInput text)) (start s) in
  stage (session w') = Ended /\
  chat_messages (session w') =
    (chat_messages s ++ [ {| role := "user"; content := text |};
                          {| role := "assistant"; content := GOODBYE |} ])%list /\
  view (session w') = view s /\
  history_messages (session w') = history_messages s /\
  candidate (session w') = candidate s /\
  latest_questions (session w') = latest_questions s /\
  show_contact (session w') = show_contact s /\
  events w' = [] /\
  invocations (events w') = [] /\
  requests (events w') = [].
Proof.
  intros H. pose proof (is_end_keyword_nonempty _ H) as Hne.
  split; [exact Hne|]. intros w'. subst w'.
  rewrite (render_chat_nonempty_chat client text s Hne).
  rewrite (on_chat_input_end client text s H). cbn. now repeat split.
Qed.

Lemma end_intent_at_any_stage_witness :
  let s := run None (CandidateSubmit profile_asha) at_form in
  let w' := exec (render_chat None (ChatInput "Thanks, bye!")) (start s) in
  view s = Chat /\ stage s = Questions /\
  stage (session w') = Ended /\
  chat_messages (session w') =
    [ {| role := "user"; content := "Thanks, bye!" |};
      {| role := "assistant"; content := GOODBYE |} ] /\
  candidate (session w') = candidate s /\
  events w' = [].
Proof.
  cbv zeta. split; [reflexivity|]. split; [reflexivity|].
  pose proof (end_intent_at_any_stage None "Thanks, bye!"
                (run None (CandidateSubmit profile_asha) at_form) eq_refl)
    as [_ [H1 [H2 [_ [_ [H5 [_ [_ [H8 _]]]]]]]]].
  split; [exact H1|]. split; [exact H2|]. split; [exact H5 | exact H8].
Defined.

(** C2, as the code has it: once the stage is "ended", a non-empty chat
    input that is not an end-intent is answered with the fixed "session
    already wrapped up" notice, and one that is an end-intent is answered
    with the fixed goodbye message; in both cases the stage stays "ended",
    no gateway function is called and no request is sent. *)
Theorem ended_is_terminal (client : option Client) (text : string)
    (s : SessionState) :
  stage s = Ended ->
  text <> EmptyString ->
  answers_with_fixed
    (if is_end_keyword text then GOODBYE else SESSION_WRAPPED_UP) client text s /\
  stage (session (exec (render_chat client (ChatInput text)) (start s))) = Ended /\
  invocations (events (exec (render_chat client (ChatInput text)) (start s))) = [] /\
  requests (events (exec (render_chat client (ChatInput text)) (start s))) = [].
Proof.
  intros Hs Hne. unfold answers_with_fixed.
  rewrite (render_chat_nonempty_chat client text s Hne).
  destruct (is_end_keyword text) eqn:E.
  - rewrite (on_chat_input_end client text s E). repeat split.
    unfold set_stage. cbn. now rewrite <- Hs.
  - rewrite (on_chat_input_fixed client text s E) by congruence.
    rewrite Hs. now repeat split.
Qed.

Lemma ended_is_terminal_witness :
  answers_with_fixed SESSION_WRAPPED_UP None "one more question"
    ended_without_profile.
Proof.
  apply (ended_is_terminal None "one more question" ended_without_profile);
    [reflexivity | discriminate].
Defined.

(** C2 as stated fails on an end-intent input: in an ended session "bye"
    is answered with the goodbye message, not with the notice. *)
Lemma ended_goodbye_not_notice :
  stage ended_without_profile = Ended /\
  chat_messages
    (session (exec (render_chat None (ChatInput "bye")) (start ended_without_profile)))
  = (chat_messages ended_without_profile ++
       [ {| role := "user"; content := "bye" |};
         {| role := "assistant"; content := GOODBYE |} ])%list /\
  GOODBYE <> SESSION_WRAPPED_UP /\
  ~ answers_with_fixed SESSION_WRAPPED_UP None "bye" ended_without_profile.
Proof.
  split; [reflexivity|]. split; [reflexivity|]. split; [discriminate|].
  unfold answers_with_fixed. intros H.
  apply (f_equal (fun w => chat_messages (session w))) in H.
  vm_compute in H. discriminate H.
Qed.

(** C4, as the code has it: while the stage is "form", a non-empty chat
    input that is not an end-intent is answered with the static prompt to
    fill out the form first; the stage stays "form", no gateway function is
    called and no request is sent. *)
Theorem form_stage_static_prompt (client : option Client) (text : string)
    (s : SessionState) :
  stage s = Form ->
  text <> EmptyString ->
  is_end_keyword text = false ->
  answers_with_fixed FILL_FORM_FIRST client text s /\
  stage (session (exec (render_chat client (ChatInput text)) (start s))) = Form /\
  invocations (events (exec (render_chat client (ChatInput text)) (start s))) = [] /\
  requests (events (exec (render_chat client (ChatInput text)) (start s))) = [].
Proof.
  intros Hs Hne E. unfold answers_with_fixed.
  rewrite (render_chat_nonempty_chat client text s Hne).
  rewrite (on_chat_input_fixed client text s E) by congruence.
  rewrite Hs. now repeat split.
Qed.

Lemma form_stage_static_prompt_witness :
  answers_with_fixed FILL_FORM_FIRST None "What is a closure?" at_form.
Proof.
  apply (form_stage_static_prompt None "What is a closure?" at_form);
    [reflexivity | discriminate | reflexivity].
Defined.

(** C4 as stated fails on an end-intent input: at the form stage "bye" is
    answered with the goodbye message and the stage becomes "ended". *)
Lemma form_stage_goodbye_ends :
  stage at_form = Form /\
  exec (render_chat None (ChatInput "bye")) (start at_form) =
  {| session :=
       set_stage Ended
         (set_chat_messages
            [ {| role := "user"; content := "bye" |};
              {| role := "assistant"; content := GOODBYE |} ] at_form);
     events := [] |} /\
  stage (session (exec (render_chat None (ChatInput "bye")) (start at_form))) <> Form /\
  GOODBYE <> FILL_FORM_FIRST /\
  ~ answers_with_fixed FILL_FORM_FIRST None "bye" at_form.
Proof.
  split; [reflexivity|]. split; [reflexivity|].
  split; [discriminate|]. split; [discriminate|].
  unfold answers_with_fixed. intros H.
  apply (f_equal (fun w => stage (session w))) in H.
  vm_compute in H. discriminate H.
Qed.

(* ===================================================================== *)
(** ** The candidate form                                                 *)
(* ===================================================================== *)

Arguments generate_technical_questions_markdown : simpl never.
Arguments answer_followup : simpl never.

Lemma required_field_missing_iff (f : FormInput) :
  negb (Py.truthy (in_full_name f)) || negb (Py.truthy (in_email f)) ||
  negb (Py.truthy (in_tech_stack f)) = true <-> required_field_missing f.
Proof.
  unfold required_field_missing.
  now rewrite !orb_true_iff, !negb_true_iff, !truthy_false_iff, or_assoc.
Qed.

Lemma phone_malformed_iff (f : FormInput) :
  Py.truthy (in_phone f) &&
  (negb (Py.isdigit (in_phone f)) || negb (Nat.eqb (Py.len (in_phone f)) 10)) = true
  <-> phone_malformed f.
Proof.
  unfold phone_malformed.
  rewrite andb_true_iff, truthy_iff, orb_true_iff, !negb_true_iff, Nat.eqb_neq.
  split; intros [H1 H2]; (split; [exact H1|]).
  - intros [Hd Hl]. destruct H2; congruence.
  - destruct (Py.isdigit (in_phone f)); [right | now left].
    intros Hl. now apply H2.
Qed.

Lemma email_domain_wrong_iff (f : FormInput) :
  negb (Py.endswith (Py.lower (in_email f)) "@gmail.com") = true
  <-> email_domain_wrong f.
Proof. unfold email_domain_wrong. apply negb_true_iff. Qed.

Lemma refused_iff (f : FormInput) : refused f = true <-> validation_fails f.
Proof.
  unfold refused, validation_fails.
  rewrite <- required_field_missing_iff, <- phone_malformed_iff,
    <- email_domain_wrong_iff.
  unfold tech_stack_implausible.
  rewrite !orb_true_iff, !andb_true_iff, !orb_true_iff, !negb_true_iff. tauto.
Qed.

Lemma not_refused_iff (f : FormInput) : refused f = false <-> ~ validation_fails f.
Proof.
  rewrite <- refused_iff. destruct (refused f); split; congruence.
Qed.

(** In a run triggered by the form, [render_chat] comes down to the body of
    [if submitted:], provided that the form is drawn. *)
Lemma render_chat_on_submit (client : option Client) (f : FormInput) (w : World) :
  render_chat client (CandidateSubmit f) w =
  match stage (session w) with
  | Ended => (tt, w)
  | _ => on_candidate_submit client f w
  end.
Proof.
  unfold render_chat, bind, when, get, ret. cbn.
  destruct (stage (session w)); cbn; try reflexivity;
    now destruct (on_candidate_submit client f w) as [[] w'].
Qed.

(** A refused submission: one notice, which names a check that failed, and
    nothing else. *)
Lemma on_candidate_submit_refused (client : option Client) (f : FormInput) (w : World) :
  validation_fails f ->
  exists notice,
    on_candidate_submit client f w =
      (tt, {| session := session w; events := (events w ++ [notice])%list |}) /\
    ((notice = Shown Warning MSG_REQUIRED_FIELDS /\ required_field_missing f) \/
     (notice = Shown Error MSG_BAD_EMAIL /\ email_domain_wrong f) \/
     (notice = Shown Error MSG_BAD_PHONE /\ phone_malformed f) \/
     (notice = Shown Error MSG_BAD_TECH_STACK /\ tech_stack_implausible f)).
Proof.
  intros Hf. apply refused_iff in Hf. unfold refused in Hf.
  unfold on_candidate_submit.
  destruct (negb (Py.truthy (in_full_name f)) || negb (Py.truthy (in_email f)) ||
            negb (Py.truthy (in_tech_stack f))) eqn:E1.
  { eexists. split; [reflexivity|]. left. split; [reflexivity|].
    now apply required_field_missing_iff. }
  destruct (negb (Py.endswith (Py.lower (in_email f)) "@gmail.com")) eqn:E2.
  { eexists. split; [reflexivity|]. right; left. split; [reflexivity|].
    now apply email_domain_wrong_iff. }
  destruct (Py.truthy (in_phone f) &&
            (negb (Py.isdigit (in_phone f)) ||
             negb (Nat.eqb (Py.len (in_phone f)) 10))) eqn:E3.
  { eexists. split; [reflexivity|]. right; right; left. split; [reflexivity|].
    now apply phone_malformed_iff. }
  destruct (negb (looks_like_tech_stack (in_tech_stack f))) eqn:E4.
  { eexists. split; [reflexivity|]. right; right; right. split; [reflexivity|].
    now apply negb_true_iff in E4. }
  discriminate Hf.
Qed.

(** An accepted submission. *)
Lemma on_candidate_submit_accepted (client : option Client) (f : FormInput) (w : World) :
  ~ validation_fails f ->
  let w1 :=
    {| session :=
         set_history_messages
           (history_messages (session w) ++
              [ {| role := "assistant";
                   content :=
                     "Got it, **" ++ in_full_name f ++
                     "**! I’ll generate a practice set based on your tech stack: `" ++
                     in_tech_stack f ++ "`." |} ])%list
           (set_candidate (Some (profile_of f)) (session w));
       events := events w |} in
  let g := generate_technical_questions_markdown client (in_tech_stack f) in
  exec (on_candidate_submit client f) w =
  {| session := set_stage Questions (set_latest_questions (result g w1) (session w1));
     events := events (exec g w1) |}.
Proof.
  intros Hf. apply not_refused_iff in Hf. unfold refused in Hf.
  apply orb_false_iff in Hf as [Hf H4]. apply orb_false_iff in Hf as [Hf H3].
  apply orb_false_iff in Hf as [H1 H2].
  intros w1 g.
  pose proof (generate_session client (in_tech_stack f) w1) as Hs.
  unfold on_candidate_submit. rewrite H1, H2, H3, H4.
  subst w1 g. unfold exec, result, bind in *. cbn in *.
  destruct (generate_technical_questions_markdown _ _ _) as [q w2].
  cbn in *. now rewrite Hs.
Qed.

(** The setup of a run shows at most the missing-key warning; the rest of
    the run is the contact form, the intro view or the chat view. *)
Lemma run_unfold (client : option Client) (a : Action) (s : SessionState) :
  exists shown,
    run client a s =
    session
      (exec (if show_contact s then render_contact_form a
             else match view s with
                  | Intro => render_intro a
                  | Chat => render_chat client a
                  end)
            {| session := s; events := shown |}).
Proof.
  unfold run, script, exec, bind, get, start.
  destruct client as [c|]; cbn; eexists; reflexivity.
Qed.




(** C9: a profile whose email is "user@yahoo.com" is refused (with the
    other required fields present, by the notice about the Gmail address),
    and the session, hence the stage "form", stays as it was; a profile with a full
    name, the email "user@gmail.com", the phone "1234567890" and the tech
    stack "Java, Docker" is accepted: the stage becomes "questions", the
    candidate record holds the submitted fields and the latest questions are
    a non-empty string. *)
Theorem yahoo_refused_gmail_accepted (client : option Client) (f : FormInput)
    (s : SessionState) :
  (in_email f = "user@yahoo.com" ->
   session (exec (render_chat client (CandidateSubmit f)) (start s)) = s /\
   (stage s = Form ->
    stage (session (exec (render_chat client (CandidateSubmit f)) (start s))) = Form) /\
   (in_full_name f <> EmptyString -> in_tech_stack f <> EmptyString ->
    stage s = Form ->
    events (exec (render_chat client (CandidateSubmit f)) (start s))
      = [Shown Error MSG_BAD_EMAIL])) /\
  (in_full_name f <> EmptyString ->
   in_email f = "user@gmail.com" ->
   in_phone f = "1234567890" ->
   in_tech_stack f = "Java, Docker" ->
   stage s = Form ->
   let s' := session (exec (render_chat client (CandidateSubmit f)) (start s)) in
   stage s' = Questions /\
   candidate s' =
     Some {| full_name := in_full_name f;
             email := "user@gmail.com";
             phone := "1234567890";
             years_experience := in_years_exp f;
             desired_position := in_desired_pos f;
             location := in_location f;
             tech_stack := "Java, Docker" |} /\
   latest_questions s' <> EmptyString).
Proof.
  split.
  - intros He.
    assert (Hf : validation_fails f).
    { right; left. apply email_domain_wrong_iff. now rewrite He. }
    assert (E : session (exec (render_chat client (CandidateSubmit f)) (start s)) = s).
    { unfold exec. rewrite render_chat_on_submit.
      destruct (on_candidate_submit_refused client f (start s) Hf) as [n [-> _]].
      cbn. now destruct (stage s). }
    split; [exact E|]. split; [now rewrite E|].
    intros Hn Ht Hs. unfold exec. rewrite render_chat_on_submit. cbn.
    rewrite Hs. unfold on_candidate_submit. rewrite He.
    apply truthy_iff in Hn, Ht. now rewrite Hn, Ht.
  - intros Hn He Hp Ht Hs s'.
    assert (Hf : ~ validation_fails f).
    { apply not_refused_iff. unfold refused. rewrite He, Hp, Ht.
      apply truthy_iff in Hn. now rewrite Hn. }
    assert (E : exec (render_chat client (CandidateSubmit f)) (start s) =
                exec (on_candidate_submit client f) (start s)).
    { unfold exec. rewrite render_chat_on_submit. cbn. now rewrite Hs. }
    subst s'. rewrite E, (on_candidate_submit_accepted client f (start s) Hf).
    cbn. split; [reflexivity|]. split; [|apply generate_nonempty].
    unfold profile_of. now rewrite He, Hp, Ht.
Qed.

Lemma yahoo_refused_gmail_accepted_witness :
  let f := {| in_full_name := "Asha"; in_email := "user@gmail.com";
              in_phone := "1234567890"; in_years_exp := 2;
              in_desired_pos := "Backend"; in_location := "Pune";
              in_tech_stack := "Java, Docker" |} in
  let s' := session (exec (render_chat None (CandidateSubmit f)) (start at_form)) in
  stage s' = Questions /\
  candidate s' =
    Some {| full_name := "Asha"; email := "user@gmail.com";
            phone := "1234567890"; years_experience := 2;
            desired_position := "Backend"; location := "Pune";
            tech_stack := "Java, Docker" |} /\
  latest_questions s' <> EmptyString.
Proof.
  intros f.
  apply (proj2 (yahoo_refused_gmail_accepted None f at_form));
    try reflexivity; discriminate.
Defined.

(* ===================================================================== *)
(** ** Sessions                                                           *)
(* ===================================================================== *)

Lemma keeps_profile_refl (s : SessionState) : keeps_profile s s.
Proof. unfold keeps_profile. tauto. Qed.

Lemma answer_followup_session (client : option Client) (text : string) (w : World) :
  session (exec (answer_followup client text) w) = session w.
Proof.
  unfold exec, answer_followup, bind, get, create.
  destruct client as [c|]; cbn; [|reflexivity].
  now destruct (c (followup_request (session w) text)).
Qed.

Lemma render_contact_form_keeps (a : Action) (w : World) :
  keeps_profile (session w) (session (exec (render_contact_form a) w)).
Proof.
  unfold exec, render_contact_form, keeps_profile, bind, when.
  destruct a as [| n e m | | | | | f | text]; cbn; try tauto.
  destruct (negb (Py.truthy n) || negb (Py.truthy e) || negb (Py.truthy m));
    cbn; tauto.
Qed.

Lemma render_intro_keeps (a : Action) (w : World) :
  keeps_profile (session w) (session (exec (render_intro a) w)).
Proof.
  unfold exec, render_intro, keeps_profile, bind, when, get.
  destruct a; cbn; try tauto.
  destruct (history_messages (session w)); cbn; tauto.
Qed.

Lemma on_chat_input_keeps (client : option Client) (text : string) (w : World) :
  keeps_profile (session w) (session (exec (on_chat_input client text) w)).
Proof.
  unfold exec, on_chat_input, keeps_profile, bind, get.
  cbn. destruct (is_end_keyword text); cbn; [tauto|].
  destruct (stage (session w)) eqn:E; cbn; try tauto.
  destruct (Py.any _ _); cbn; [tauto|].
  pose proof (answer_followup_session client text
    {| session :=
         set_chat_messages
           (chat_messages (session w) ++ [{| role := "user"; content := text |}])%list
           (session w);
       events := events w |}) as Hs.
  unfold exec in Hs.
  destruct (answer_followup client text _) as [reply w']. cbn in *.
  rewrite Hs. cbn. tauto.
Qed.

(** The effect of one run on the profile: it is kept, or the run is an
    accepted submission of the form. *)
Lemma run_profile (client : option Client) (a : Action) (s : SessionState) :
  keeps_profile s (run client a s) \/
  exists f,
    a = CandidateSubmit f /\ ~ validation_fails f /\ stage s <> Ended /\
    stage (run client a s) = Questions /\
    candidate (run client a s) = Some (profile_of f) /\
    latest_questions (run client a s) <> EmptyString.
Proof.
  destruct (run_unfold client a s) as [shown ->].
  set (w := {| session := s; events := shown |}).
  destruct (show_contact s); [left; exact (render_contact_form_keeps a w)|].
  destruct (view s); [left; exact (render_intro_keeps a w)|].
  destruct a as [| n e m | | | | | f | text];
    try (left; subst w; unfold exec, render_chat, keeps_profile, bind, when, get;
         cbn; destruct (stage s) eqn:E; cbn; rewrite ?E; solve [auto]).
  - unfold exec. rewrite render_chat_on_submit. cbn.
    destruct (refused f) eqn:Ef.
    + left. apply refused_iff in Ef.
      destruct (on_candidate_submit_refused client f w Ef) as [n [-> _]].
      destruct (stage s); apply keeps_profile_refl.
    + apply not_refused_iff in Ef.
      pose proof (on_candidate_submit_accepted client f w Ef) as Ha.
      unfold exec in Ha. cbn in Ha.
      destruct (stage s) eqn:Es; [right | right | left; apply keeps_profile_refl];
        exists f; rewrite Ha; cbn; repeat split; try congruence; auto;
        apply generate_nonempty.
  - unfold exec. rewrite render_chat_on_chat.
    destruct (Py.truthy text); [|left; apply keeps_profile_refl].
    left. exact (on_chat_input_keeps client text w).
Qed.

Lemma reachable_runs (l : list (option Client * Action)) (s : SessionState) :
  reachable s -> reachable (runs l s).
Proof.
  revert s. induction l as [|[client a] l IH]; intros s Hs; cbn; [exact Hs|].
  apply IH. now constructor.
Qed.

Lemma ended_without_profile_reachable : reachable ended_without_profile.
Proof. apply reachable_runs. constructor. Qed.

(** C1 as stated fails: the welcome button and then "bye" in the chat box
    lead from the initial state to the stage "ended" with the candidate
    still empty. *)
Lemma ended_with_empty_candidate :
  reachable ended_without_profile /\
  stage ended_without_profile = Ended /\
  candidate ended_without_profile = None.
Proof.
  split; [exact ended_without_profile_reachable|]. split; reflexivity.
Qed.

(** C1, as the code has it: in every reachable session state, the stage
    "questions" implies that the candidate profile is set, the stage "form"
    implies that it is empty, and the profile is set exactly when the
    latest questions are; at the stage "ended" the profile is set or not,
    according to whether a profile was accepted before the session ended. *)
Theorem reachable_profile_invariant (s : SessionState) :
  reachable s ->
  (stage s = Questions -> candidate s <> None) /\
  (stage s = Form -> candidate s = None) /\
  (candidate s = None <-> latest_questions s = EmptyString).
Proof.
  induction 1 as [|client a s Hr [IHq [IHf IHl]]].
  - cbn. repeat split; congruence.
  - destruct (run_profile client a s)
      as [[Hc [Hl Hst]] | [f [_ [_ [_ [Hst [Hc Hl]]]]]]].
    + rewrite Hc, Hl. split; [|split; [|exact IHl]].
      * intros Hq. destruct Hst as [Hst|Hst]; [|congruence].
        apply IHq. congruence.
      * intros Hf. destruct Hst as [Hst|Hst]; [|congruence].
        apply IHf. congruence.
    + rewrite Hc, Hst. split; [congruence|]. split; [congruence|].
      split; [congruence | intros Hl'; now apply Hl in Hl'].
Qed.

Lemma reachable_profile_invariant_witness :
  (stage ended_without_profile = Questions ->
   candidate ended_without_profile <> None) /\
  (stage ended_without_profile = Form -> candidate ended_without_profile = None) /\
  (candidate ended_without_profile = None <->
   latest_questions ended_without_profile = EmptyString).
Proof.
  apply (reachable_profile_invariant ended_without_profile).
  apply reachable_runs. constructor.
Defined.

(** C3 as stated fails: the form stays on screen at the stage "questions",
    and a second accepted submission replaces the stored candidate. *)
Lemma second_submission_replaces_candidate :
  let s1 := run None (CandidateSubmit profile_asha) at_form in
  let s2 := run None (CandidateSubmit profile_ravi) s1 in
  stage s1 = Questions /\
  candidate s1 = Some (profile_of profile_asha) /\
  candidate s2 = Some (profile_of profile_ravi) /\
  candidate s2 <> candidate s1.
Proof.
  cbv zeta. split; [reflexivity|]. split; [reflexivity|]. split; [reflexivity|].
  intros H. vm_compute in H. discriminate H.
Qed.

Lemma runs_keep_candidate (l : list (option Client * Action)) (s : SessionState) :
  (forall client f, In (client, CandidateSubmit f) l -> validation_fails f) ->
  candidate (runs l s) = candidate s.
Proof.
  revert s. induction l as [|[client a] l IH]; intros s Hl; cbn; [reflexivity|].
  rewrite IH by (intros c f Hin; apply (Hl c f); now right).
  destruct (run_profile client a s) as [[Hc _] | [f [-> [Hf _]]]]; [exact Hc|].
  exfalso. apply Hf, (Hl client f). now left.
Qed.

Lemma runs_ended (l : list (option Client * Action)) (s : SessionState) :
  stage s = Ended ->
  candidate (runs l s) = candidate s /\ stage (runs l s) = Ended.
Proof.
  revert s. induction l as [|[client a] l IH]; intros s Hs; cbn; [tauto|].
  destruct (run_profile client a s)
    as [[Hc [_ Hst]] | [f [_ [_ [Hne _]]]]]; [|congruence].
  assert (Hs' : stage (run client a s) = Ended) by (destruct Hst; congruence).
  destruct (IH _ Hs') as [H1 H2]. split; congruence.
Qed.

(** C3, as the code has it: the candidate record is written by an accepted
    submission of the form, which stores the seven submitted fields as they
    are and can happen again while the stage is "questions"; every other
    run (a refused submission, a chat message, the buttons, the contact
    form) leaves it as it is, so it stays equal to the last accepted
    submission along any sequence of such runs, and it never changes once
    the stage is "ended". *)
Theorem candidate_written_by_accepted_submission :
  (forall client a s,
     candidate (run client a s) = candidate s \/
     exists f, a = CandidateSubmit f /\ ~ validation_fails f /\
               stage s <> Ended /\
               candidate (run client a s) =
                 Some {| full_name := in_full_name f;
                         email := in_email f;
                         phone := in_phone f;
                         years_experience := in_years_exp f;
                         desired_position := in_desired_pos f;
                         location := in_location f;
                         tech_stack := in_tech_stack f |}) /\
  (forall l s,
     (forall client f, In (client, CandidateSubmit f) l -> validation_fails f) ->
     candidate (runs l s) = candidate s) /\
  (forall l s,
     stage s = Ended ->
     candidate (runs l s) = candidate s /\ stage (runs l s) = Ended).
Proof.
  split; [|split].
  - intros client a s.
    destruct (run_profile client a s)
      as [[Hc _] | [f [Ha [Hf [Hs [_ [Hc _]]]]]]]; [now left|].
    right. exists f. repeat split; assumption.
  - exact runs_keep_candidate.
  - exact runs_ended.
Qed.

Lemma candidate_written_by_accepted_submission_witness :
  let refused_profile :=
    {| in_full_name := "Ravi"; in_email := "ravi@yahoo.com";
       in_phone := EmptyString; in_years_exp := 5; in_desired_pos := "DevOps";
       in_location := "Mysuru"; in_tech_stack := "Docker, Kubernetes" |} in
  candidate
    (runs [(None, ChatInput "What is a JOIN?");
           (None, CandidateSubmit refused_profile);
           (None, ContactChatClick); (None, ChatInput "hello");
           (None, CloseClick); (None, ChatInput "bye")]
       (run None (CandidateSubmit profile_asha) at_form))
  = Some {| full_name := "Asha"; email := "asha@gmail.com";
            phone := "9876543210"; years_experience := 2;
            desired_position := "Backend"; location := "Pune";
            tech_stack := "Python, SQL" |}.
Proof.
  cbv zeta.
  rewrite (proj1 (proj2 candidate_written_by_accepted_submission)).
  - reflexivity.
  - intros client f [H|[H|[H|[H|[H|[H|[]]]]]]]; try discriminate H.
    injection H as _ <-. right; left. reflexivity.
Defined.

(** A whole session: the welcome button, an accepted profile, a follow-up
    that the gateway answers with its apology for want of a client, and a
    goodbye. *)
Example whole_session :
  let s := runs [(None, StartClick);
                 (None, CandidateSubmit profile_asha);
                 (None, ChatInput "How do I explain an index?");
                 (None, ChatInput "thanks")] initial_state in
  view s = Chat /\ stage s = Ended /\
  candidate s = Some (profile_of profile_asha) /\
  latest_questions s = GENERIC_FALLBACK_TEXT /\
  map content (chat_messages s) =
    ["How do I explain an index?"; FOLLOWUP_NO_CLIENT; "thanks"; GOODBYE] /\
  length (history_messages s) = 2.
Proof. cbv zeta. repeat split; reflexivity. Qed.

(* ===================================================================== *)
(** ** Further properties: the validators                                 *)
(* ===================================================================== *)

Lemma occurs_ignoring_case_extend (k t a b : string) :
  occurs_ignoring_case k t -> occurs_ignoring_case k (a ++ t ++ b).
Proof.
  intros [pre [piece [post [-> H]]]].
  exists (a ++ pre), piece, (post ++ b). split; [|exact H].
  clear H. induction a as [|x a IH]; cbn.
  - induction pre as [|y pre IHp]; cbn; [|now rewrite IHp].
    induction piece as [|z piece IHq]; cbn; [reflexivity | now rewrite IHq].
  - now rewrite IH.
Qed.

(** X1: [looks_like_tech_stack] is true exactly for the strings in which
    one of the known technology keywords occurs as a case-insensitive
    substring (a piece of the string that reads as the keyword, each letter
    small or capital by the table [LETTERS], the Kelvin sign standing for a
    "k"); nothing else of the text matters. *)
Theorem looks_like_tech_stack_correct (text : string) :
  looks_like_tech_stack text = true <-> has_tech_keyword text.
Proof.
  unfold looks_like_tech_stack, has_tech_keyword.
  apply any_contains_lower_iff. reflexivity.
Qed.

(** X2: the three keyword tests only ever look for a keyword somewhere in
    the text, so text added before or after a message that passes a test
    cannot make it fail: a closing phrase, a technology or an out-of-scope
    topic inside a longer message is still found. *)
Theorem keyword_tests_monotone (before text after : string) :
  (is_end_keyword text = true ->
   is_end_keyword (before ++ text ++ after) = true) /\
  (looks_like_tech_stack text = true ->
   looks_like_tech_stack (before ++ text ++ after) = true) /\
  (is_out_of_scope text = true ->
   is_out_of_scope (before ++ text ++ after) = true).
Proof.
  split; [|split]; intros H.
  - apply is_end_keyword_iff. apply is_end_keyword_iff in H.
    destruct H as [k [Hin H]]. exists k. split; [exact Hin|].
    now apply occurs_ignoring_case_extend.
  - apply (any_contains_lower_iff KNOWN_TECH_KEYWORDS _ eq_refl).
    apply (any_contains_lower_iff KNOWN_TECH_KEYWORDS _ eq_refl) in H.
    destruct H as [k [Hin H]]. exists k. split; [exact Hin|].
    now apply occurs_ignoring_case_extend.
  - apply (any_contains_lower_iff OUT_OF_SCOPE_KEYWORDS _ eq_refl).
    apply (any_contains_lower_iff OUT_OF_SCOPE_KEYWORDS _ eq_refl) in H.
    destruct H as [k [Hin H]]. exists k. split; [exact Hin|].
    now apply occurs_ignoring_case_extend.
Qed.

Lemma keyword_tests_monotone_witness :
  is_end_keyword ("Great, " ++ "thanks" ++ " a lot!") = true /\
  looks_like_tech_stack ("I use " ++ "Django" ++ " daily") = true /\
  is_out_of_scope ("tell me a " ++ "joke" ++ " please") = true.
Proof.
  split; [|split].
  - apply (proj1 (keyword_tests_monotone "Great, " "thanks" " a lot!")).
    reflexivity.
  - apply (proj1 (proj2 (keyword_tests_monotone "I use " "Django" " daily"))).
    reflexivity.
  - apply (proj2 (proj2 (keyword_tests_monotone "tell me a " "joke" " please"))).
    reflexivity.
Defined.

(* ===================================================================== *)
(** ** Further properties: the gateway                                    *)
(* ===================================================================== *)

Lemma invocations_app (l1 l2 : list Event) :
  invocations (l1 ++ l2) = (invocations l1 ++ invocations l2)%list.
Proof. apply flat_map_app. Qed.

(** What a call of [generate_technical_questions_markdown] adds to the
    events of the run. *)
Lemma generate_events (client : option Client) (tech_stack : string) (w : World) :
  events (exec (generate_technical_questions_markdown client tech_stack) w) =
  (events w ++
   Invoked (GenerateQuestions tech_stack) ::
   match client with
   | None => [Shown Error MSG_GEN_NO_CLIENT]
   | Some c =>
       Sent (questions_request tech_stack) ::
       match c (questions_request tech_stack) with
       | Completion text =>
           if Py.contains "###" (Py.strip text) then []
           else [Shown Warning MSG_GEN_BAD_FORMAT]
       | Raised exc_type exc_text =>
           [Shown Error MSG_GEN_API_FAILED;
            Shown Caption ("Details: " ++ exc_type ++ ": " ++ exc_text)]
       end
   end)%list.
Proof.
  unfold exec, generate_technical_questions_markdown, bind, create, st_error,
    st_warning, st_caption, emit, ret.
  destruct client as [c|]; cbn.
  - destruct (c (questions_request tech_stack)) as [text | ty tx]; cbn.
    + destruct (Py.contains "###" (Py.strip text)); cbn;
        now rewrite <- ?app_assoc.
    + now rewrite <- !app_assoc.
  - now rewrite <- !app_assoc.
Qed.

Lemma answer_followup_events (client : option Client) (text : string) (w : World) :
  events (exec (answer_followup client text) w) =
  (events w ++
   Invoked (AnswerFollowup text) ::
   match client with
   | None => []
   | Some _ => [Sent (followup_request (session w) text)]
   end)%list.
Proof.
  unfold exec, answer_followup, bind, create, get, emit, ret.
  destruct client as [c|]; cbn; [|reflexivity].
  destruct (c (followup_request (session w) text)); cbn; now rewrite <- !app_assoc.
Qed.

Lemma answer_followup_result (client : option Client) (text : string) (w : World) :
  result (answer_followup client text) w =
  match client with
  | None => FOLLOWUP_NO_CLIENT
  | Some c =>
      match c (followup_request (session w) text) with
      | Completion answer => Py.strip answer
      | Raised exc_type _ => FOLLOWUP_FAILED_PREFIX ++ exc_type ++ ")"
      end
  end.
Proof.
  unfold result, answer_followup, bind, create, get, emit, ret.
  destruct client as [c|]; cbn; [|reflexivity].
  now destruct (c (followup_request (session w) text)).
Qed.

(** X3: whatever the client is and whatever the service answers,
    [generate_technical_questions_markdown] returns markdown with a "###"
    section in it (so never an empty string) and leaves the session state
    alone; a response whose stripped text has such a section is returned
    stripped and without any notice. *)
Theorem generated_markdown_has_section (client : option Client)
    (tech_stack : string) (w : World) :
  Py.contains "###"
    (result (generate_technical_questions_markdown client tech_stack) w) = true /\
  result (generate_technical_questions_markdown client tech_stack) w <> EmptyString /\
  session (exec (generate_technical_questions_markdown client tech_stack) w)
    = session w /\
  (forall c text,
     client = Some c ->
     c (questions_request tech_stack) = Completion text ->
     Py.contains "###" (Py.strip text) = true ->
     result (generate_technical_questions_markdown client tech_stack) w
       = Py.strip text /\
     events (exec (generate_technical_questions_markdown client tech_stack) w)
       = (events w ++ [Invoked (GenerateQuestions tech_stack);
                       Sent (questions_request tech_stack)])%list).
Proof.
  split; [apply generate_has_section|]. split; [apply generate_nonempty|].
  split; [apply generate_session|].
  intros c text -> Hc Hs. split.
  - now rewrite generate_result, Hc, Hs.
  - now rewrite generate_events, Hc, Hs.
Qed.

(** X4: a call of [generate_technical_questions_markdown] with a client
    sends exactly one request, whatever the outcome: model
    "llama-3.1-8b-instant", temperature 0.3, and as user message the tech
    stack as it was typed after "Candidate tech stack: ".  A failure of the
    call is shown as an error with the exception's type and text in a
    caption, a response without a section as a warning. *)
Theorem generate_sends_one_request (c : Client) (tech_stack : string) (w : World) :
  let ev := events (exec (generate_technical_questions_markdown (Some c) tech_stack) w) in
  exists shown,
    ev = (events w ++ Invoked (GenerateQuestions tech_stack) ::
                      Sent (questions_request tech_stack) :: shown)%list /\
    requests shown = [] /\ invocations shown = [] /\
    model (questions_request tech_stack) = "llama-3.1-8b-instant" /\
    temperature (questions_request tech_stack) = (3 # 10)%Q /\
    map content (tl (messages (questions_request tech_stack)))
      = ["Candidate tech stack: " ++ tech_stack] /\
    (forall exc_type exc_text,
       c (questions_request tech_stack) = Raised exc_type exc_text ->
       shown = [Shown Error MSG_GEN_API_FAILED;
                Shown Caption ("Details: " ++ exc_type ++ ": " ++ exc_text)]) /\
    (forall text,
       c (questions_request tech_stack) = Completion text ->
       Py.contains "###" (Py.strip text) = false ->
       shown = [Shown Warning MSG_GEN_BAD_FORMAT]).
Proof.
  intros ev. subst ev. rewrite generate_events. eexists. split; [reflexivity|].
  destruct (c (questions_request tech_stack)) as [text | ty tx].
  - destruct (Py.contains "###" (Py.strip text)) eqn:E;
      repeat split; try reflexivity; try discriminate; congruence.
  - repeat split; try reflexivity; try discriminate.
    intros ty' tx' H. now injection H as -> ->.
Qed.

(** X5: [answer_followup] never changes the session state and always
    returns a string: without a client its fixed apology and no request;
    with a client exactly one request, and then the stripped answer of the
    service or, when the call raises, the apology that ends with the name
    of the exception's type. *)
Theorem answer_followup_total (client : option Client) (user_input : string)
    (w : World) :
  session (exec (answer_followup client user_input) w) = session w /\
  invocations (events (exec (answer_followup client user_input) w))
    = (invocations (events w) ++ [AnswerFollowup user_input])%list /\
  (client = None ->
   result (answer_followup client user_input) w = FOLLOWUP_NO_CLIENT /\
   requests (events (exec (answer_followup client user_input) w))
     = requests (events w)) /\
  (forall c, client = Some c ->
   requests (events (exec (answer_followup client user_input) w))
     = (requests (events w) ++ [followup_request (session w) user_input])%list /\
   (forall answer,
      c (followup_request (session w) user_input) = Completion answer ->
      result (answer_followup client user_input) w = Py.strip answer) /\
   (forall exc_type exc_text,
      c (followup_request (session w) user_input) = Raised exc_type exc_text ->
      result (answer_followup client user_input) w
        = FOLLOWUP_FAILED_PREFIX ++ exc_type ++ ")")).
Proof.
  split; [apply answer_followup_session|].
  rewrite answer_followup_events, invocations_app, requests_app,
    answer_followup_result.
  split; [now destruct client|]. split.
  - intros ->. cbn. now rewrite app_nil_r.
  - intros c ->. cbn. split; [reflexivity|].
    split; [intros answer H | intros ty tx H]; now rewrite H.
Qed.

(* ===================================================================== *)
(** ** Further properties: one run                                        *)
(* ===================================================================== *)

(** The chat handler, branch by branch. *)
Lemma on_chat_input_exec (client : option Client) (text : string) (w : World) :
  exec (on_chat_input client text) w =
  let s := session w in
  let w1 := {| session :=
                 set_chat_messages (chat_messages s ++ [user_turn text])%list s;
               events := events w |} in
  let replied reply :=
    set_chat_messages
      (chat_messages s ++ [user_turn text; assistant_turn reply])%list s in
  if is_end_keyword text then
    {| session := set_stage Ended (replied GOODBYE); events := events w |}
  else
    match stage s with
    | Ended => {| session := replied SESSION_WRAPPED_UP; events := events w |}
    | Form => {| session := replied FILL_FORM_FIRST; events := events w |}
    | Questions =>
        if is_out_of_scope text then
          {| session := replied OUT_OF_SCOPE_REPLY; events := events w |}
        else
          {| session := replied (result (answer_followup client text) w1);
             events := events (exec (answer_followup client text) w1) |}
    end.
Proof.
  cbv zeta. unfold exec, on_chat_input, bind, get, is_out_of_scope, user_turn,
    assistant_turn. cbn.
  destruct (is_end_keyword text); cbn; [now rewrite append_two|].
  destruct (stage (session w)); cbn; try now rewrite append_two.
  destruct (Py.any _ _); cbn; [now rewrite append_two|].
  pose proof (answer_followup_session client text
    {| session :=
         set_chat_messages
           (chat_messages (session w) ++ [{| role := "user"; content := text |}])%list
           (session w);
       events := events w |}) as Hs.
  unfold exec, result in *.
  destruct (answer_followup client text _) as [reply w']. cbn in *.
  rewrite Hs. cbn. now rewrite append_two.
Qed.

(** [render_chat] in a run triggered by anything but the form and the chat
    box. *)
Lemma render_chat_exec_other (client : option Client) (a : Action) (w : World) :
  candidate_form a = None -> st_chat_input a = None ->
  exec (render_chat client a) w =
  if st_button KeyContactChat a
  then {| session := set_show_contact true (session w); events := events w |}
  else w.
Proof.
  intros Hf Hc. unfold exec, render_chat, bind, when, get, ret.
  rewrite Hf, Hc.
  destruct (st_button KeyContactChat a); cbn;
    match goal with
    | |- context [if ?b then _ else _] => now destruct b
    end.
Qed.

Lemma render_contact_form_exec (a : Action) (w : World) :
  exec (render_contact_form a) w =
  match a with
  | ContactSubmit name email message =>
      if negb (Py.truthy name) || negb (Py.truthy email) || negb (Py.truthy message)
      then {| session := session w;
              events := (events w ++ [Shown Warning MSG_CONTACT_INCOMPLETE])%list |}
      else {| session := set_show_contact false (session w);
              events := (events w ++ [Shown Success MSG_CONTACT_RECEIVED])%list |}
  | CloseClick =>
      {| session := set_show_contact false (session w); events := events w |}
  | _ => w
  end.
Proof.
  unfold exec, render_contact_form, bind, when, ret.
  destruct a as [| n e m | | | | | f | text]; cbn; try reflexivity.
  now destruct (negb (Py.truthy n) || negb (Py.truthy e) || negb (Py.truthy m)).
Qed.

Lemma render_intro_exec (a : Action) (w : World) :
  exec (render_intro a) w =
  match a with
  | ContactIntroClick =>
      {| session := set_show_contact true (session w); events := events w |}
  | StartClick =>
      match history_messages (session w) with
      | [] => {| session :=
                   set_history_messages [greeting_message] (set_view Chat (session w));
                 events := events w |}
      | _ :: _ => {| session := set_view Chat (session w); events := events w |}
      end
  | _ => w
  end.
Proof.
  unfold exec, render_intro, bind, when, get, ret, greeting_message.
  destruct a; cbn; try reflexivity.
  destruct (history_messages (session w)) eqn:E; cbn; now rewrite ?E.
Qed.

(** One run, as the view that it draws: the setup of lines 12-24, then the
    contact form, the intro view or the chat view. *)
Lemma script_exec (client : option Client) (a : Action) (s : SessionState) :
  exec (script client a) (start s) =
  exec (if show_contact s then render_contact_form a
        else match view s with
             | Intro => render_intro a
             | Chat => render_chat client a
             end)
       {| session := s; events := setup_events client |}.
Proof.
  unfold script, exec, bind, get, start, setup_events.
  now destruct client as [c|]; cbn.
Qed.

(** Every run has one of the effects of [transition]. *)
Lemma run_transition (client : option Client) (a : Action) (s : SessionState) :
  transition s (run client a s).
Proof.
  unfold run. rewrite script_exec.
  destruct (show_contact s) eqn:Hc.
  { rewrite render_contact_form_exec.
    destruct a as [| n e m | | | | | f | text]; cbn; try apply t_none.
    - destruct (negb (Py.truthy n) || negb (Py.truthy e) || negb (Py.truthy m));
        cbn; [apply t_none | apply t_contact].
    - apply t_contact. }
  destruct (view s) eqn:Hv.
  { rewrite render_intro_exec.
    destruct a; cbn; try apply t_none; [apply t_contact|].
    destruct (history_messages s) eqn:Hh; cbn;
      [now apply t_start | apply t_start_again; congruence]. }
  destruct a as [| n e m | | | | | f | text];
    try (rewrite render_chat_exec_other by reflexivity; cbn;
         first [apply t_none | apply t_contact]).
  - unfold exec. rewrite render_chat_on_submit. cbn.
    destruct (stage s) eqn:Hs; try apply t_none;
      (destruct (refused f) eqn:Ef;
       [ apply refused_iff in Ef;
         destruct (on_candidate_submit_refused client f
                     {| session := s; events := setup_events client |} Ef)
           as [n [-> _]]; apply t_none
       | apply not_refused_iff in Ef;
         pose proof (on_candidate_submit_accepted client f
                       {| session := s; events := setup_events client |} Ef) as Ha;
         unfold exec in Ha; cbn in Ha; rewrite Ha; cbn;
         apply t_accept; try assumption; try congruence;
         apply generate_has_section ]).
  - unfold exec. rewrite render_chat_on_chat.
    destruct (Py.truthy text) eqn:Ht; [|apply t_none].
    apply truthy_iff in Ht.
    pose proof (on_chat_input_exec client text
                  {| session := s; events := setup_events client |}) as He.
    unfold exec in He. rewrite He. cbn.
    destruct (is_end_keyword text) eqn:Ee; cbn; [now apply t_goodbye|].
    destruct (stage s); cbn; try now apply t_reply.
    destruct (is_out_of_scope text); cbn; now apply t_reply.
Qed.

(* ===================================================================== *)
(** ** Further properties: sessions                                       *)
(* ===================================================================== *)

Lemma exchanges_app (l : list Message) (u a : Message) :
  exchanges l -> exchanges [u; a] -> exchanges (l ++ [u; a]).
Proof.
  intros Hl Hua.
  assert (H : forall n (l : list Message),
             length l <= n -> exchanges l -> exchanges (l ++ [u; a])).
  { clear l Hl. induction n as [|n IH]; intros l Hn Hl.
    - destruct l; [exact Hua | cbn in Hn; lia].
    - destruct l as [|x [|y l]]; [exact Hua | destruct Hl |].
      cbn in Hl |- *. destruct Hl as [H1 [H2 [H3 H4]]].
      repeat split; try assumption. apply IH; [cbn in Hn; lia | exact H4]. }
  now apply (H (length l)).
Qed.

Lemma exchanges_even (l : list Message) : exchanges l -> Nat.even (length l) = true.
Proof.
  assert (H : forall n (l : list Message),
             length l <= n -> exchanges l -> Nat.even (length l) = true).
  { induction n as [|n IH]; intros l' Hn Hl.
    - destruct l'; [reflexivity | cbn in Hn; lia].
    - destruct l' as [|x [|y l']]; [reflexivity | destruct Hl |].
      cbn in Hl |- *. apply IH; [cbn in Hn; lia | tauto]. }
  now apply (H (length l)).
Qed.

Lemma initial_consistent : consistent initial_state.
Proof.
  constructor; cbn; try tauto; discriminate.
Qed.

Lemma transition_consistent (s s' : SessionState) :
  transition s s' -> consistent s -> consistent s'.
Proof.
  intros Ht [Hi Hh Hf Hq Hc Hl Hx].
  destruct Ht as [| b | Hv Hsc Hne | Hv Hsc He | f q Hv Hsc Hst Hval Hsec
                  | text reply Hv Hsc Hne Hend | text Hv Hsc Hne Hend].
  - now constructor.
  - now constructor.
  - destruct (Hi Hv) as [H _]. congruence.
  - destruct (Hi Hv) as [_ [Hchat Hstage]].
    constructor; cbn; try assumption; try discriminate.
    intros _. exists []. split; [reflexivity | constructor].
  - constructor; cbn; try congruence.
    + intros _. destruct (Hh Hv) as [confs [-> Hconfs]].
      exists (confs ++ [confirmation_message f])%list. split; [reflexivity|].
      apply Forall_app. split; [exact Hconfs|]. constructor; [|constructor].
      exists f. now split.
    + intros _. split; [discriminate|].
      apply contains_nonempty with (k := "###"); [discriminate | exact Hsec].
    + intros p Hp. injection Hp as <-. now exists f.
    + now right.
  - constructor; cbn; try assumption; try congruence.
    apply exchanges_app; [exact Hx|]. cbn. tauto.
  - constructor; cbn; try assumption; try congruence; try discriminate.
    apply exchanges_app; [exact Hx|]. cbn. tauto.
Qed.

Lemma reachable_consistent (s : SessionState) : reachable s -> consistent s.
Proof.
  induction 1 as [|client a s Hr IH]; [exact initial_consistent|].
  exact (transition_consistent _ _ (run_transition client a s) IH).
Qed.

Lemma transition_logs (s s' : SessionState) :
  transition s s' ->
  (exists c, chat_messages s' = chat_messages s ++ c)%list /\
  (exists h, history_messages s' = history_messages s ++ h)%list.
Proof.
  intros [| b | Hv Hsc Hne | Hv Hsc He | f q Hv Hsc Hst Hval Hsec
          | text reply Hv Hsc Hne Hend | text Hv Hsc Hne Hend]; cbn;
    try rewrite He;
    split; eexists; first [ symmetry; apply app_nil_r | reflexivity ].
Qed.

Lemma transition_order (s s' : SessionState) :
  transition s s' ->
  (view s = Chat -> view s' = Chat) /\
  stage_rank (stage s) <= stage_rank (stage s').
Proof.
  intros [| b | Hv Hsc Hne | Hv Hsc He | f q Hv Hsc Hst Hval Hsec
          | text reply Hv Hsc Hne Hend | text Hv Hsc Hne Hend]; cbn;
    (split; [tauto|]); try lia; destruct (stage s); cbn; try lia; congruence.
Qed.

(** X6: the two message logs are append-only: along any sequence of runs,
    the live chat and the history keep every message that they had, in the
    same order, and only grow at the end. *)
Theorem logs_append_only (l : list (option Client * Action)) (s : SessionState) :
  (exists c, chat_messages (runs l s) = chat_messages s ++ c)%list /\
  (exists h, history_messages (runs l s) = history_messages s ++ h)%list.
Proof.
  revert s. induction l as [|[client a] l IH]; intros s; cbn.
  - split; exists []; symmetry; apply app_nil_r.
  - destruct (IH (run client a s)) as [[c Hc] [h Hh]].
    destruct (transition_logs _ _ (run_transition client a s)) as [[c0 Hc0] [h0 Hh0]].
    rewrite Hc, Hh, Hc0, Hh0, <- !app_assoc. split; eexists; reflexivity.
Qed.

(** X7: in every reachable session state the live chat is a sequence of
    exchanges, a non-empty user turn followed by one assistant reply: every
    message of the user gets exactly one answer, at every stage, and the
    assistant never speaks first. *)
Theorem chat_log_is_exchanges (s : SessionState) :
  reachable s ->
  exchanges (chat_messages s) /\ Nat.even (length (chat_messages s)) = true.
Proof.
  intros Hr. pose proof (inv_chat _ (reachable_consistent s Hr)) as H.
  split; [exact H | now apply exchanges_even].
Qed.

Lemma chat_log_is_exchanges_witness :
  exchanges
    (chat_messages
       (runs [(None, CandidateSubmit profile_asha);
              (None, ChatInput "tell me a joke");
              (None, ChatInput "thanks")] at_form)).
Proof.
  apply chat_log_is_exchanges. apply reachable_runs.
  unfold at_form. constructor. constructor.
Defined.

(** X8: before the welcome button is clicked nothing has happened (no
    history, no chat, stage "form"); from then on the history starts with
    the greeting, which is never added twice, and every later history
    message is the confirmation of a profile that passed validation:
    the assistant's "Got it" with the name and the tech stack of a form
    that none of the four checks refuses. *)
Theorem history_starts_with_greeting (s : SessionState) :
  reachable s ->
  (view s = Intro ->
   history_messages s = [] /\ chat_messages s = [] /\ stage s = Form) /\
  (view s = Chat ->
   exists confirmations,
     history_messages s =
       {| role := "assistant"; content := GREETING |} :: confirmations /\
     Forall (fun m =>
               exists f,
                 ~ validation_fails f /\
                 m = {| role := "assistant";
                        content :=
                          "Got it, **" ++ in_full_name f ++
                          "**! I’ll generate a practice set based on your tech stack: `" ++
                          in_tech_stack f ++ "`." |})
            confirmations).
Proof.
  intros Hr. destruct (reachable_consistent s Hr) as [Hi Hh _ _ _ _ _].
  now split.
Qed.

Lemma history_starts_with_greeting_witness :
  let s := run None (CandidateSubmit profile_asha) at_form in
  view s = Chat /\
  exists confirmations,
    history_messages s =
      {| role := "assistant"; content := GREETING |} :: confirmations /\
    Forall (fun m =>
              exists f,
                ~ validation_fails f /\
                m = {| role := "assistant";
                       content :=
                         "Got it, **" ++ in_full_name f ++
                         "**! I’ll generate a practice set based on your tech stack: `" ++
                         in_tech_stack f ++ "`." |})
           confirmations.
Proof.
  cbv zeta. split; [reflexivity|].
  apply (history_starts_with_greeting
           (run None (CandidateSubmit profile_asha) at_form)).
  - unfold at_form. repeat constructor.
  - reflexivity.
Defined.

(** X9: the view and the stage only advance: once the view is "chat" it
    stays "chat", and the stage never goes back from "questions" to "form"
    or from "ended" to anything else, along any sequence of runs. *)
Theorem view_and_stage_only_advance (l : list (option Client * Action))
    (s : SessionState) :
  (view s = Chat -> view (runs l s) = Chat) /\
  stage_rank (stage s) <= stage_rank (stage (runs l s)).
Proof.
  revert s. induction l as [|[client a] l IH]; intros s; cbn; [split; auto|].
  destruct (IH (run client a s)) as [Hv Hs].
  destruct (transition_order _ _ (run_transition client a s)) as [Hv0 Hs0].
  split; [auto | lia].
Qed.

(** The checks that an accepted form has passed, on the stored record. *)
Lemma accepted_fields (f : FormInput) :
  ~ validation_fails f ->
  in_full_name f <> EmptyString /\ in_email f <> EmptyString /\
  in_tech_stack f <> EmptyString /\
  Py.endswith (Py.lower (in_email f)) "@gmail.com" = true /\
  (in_phone f = EmptyString \/
   Py.isdigit (in_phone f) = true /\ Py.len (in_phone f) = 10) /\
  looks_like_tech_stack (in_tech_stack f) = true.
Proof.
  intros Hf. apply not_refused_iff in Hf. unfold refused in Hf.
  apply orb_false_iff in Hf as [Hf H4]. apply orb_false_iff in Hf as [Hf H3].
  apply orb_false_iff in Hf as [H1 H2].
  apply orb_false_iff in H1 as [H1 H1c]. apply orb_false_iff in H1 as [H1a H1b].
  apply negb_false_iff in H1a, H1b, H1c, H2, H4.
  apply truthy_iff in H1a, H1b, H1c.
  repeat split; try assumption.
  destruct (in_phone f) as [|c r] eqn:Ep; [now left | right].
  cbn [Py.truthy andb] in H3. apply orb_false_iff in H3 as [Hd Hl].
  apply negb_false_iff in Hd, Hl. apply Nat.eqb_eq in Hl. now split.
Qed.

(** X10: in every reachable session state a stored candidate has passed
    the four checks: its name, email and tech stack are not empty, its
    lowered email ends with "@gmail.com", its phone is empty or made of ten
    digits ([str.isdigit], [len]), and its tech stack passes
    [looks_like_tech_stack]; and the latest questions are either still
    empty or markdown with a "###" section in it. *)
Theorem stored_profile_is_valid (s : SessionState) :
  reachable s ->
  (forall p, candidate s = Some p ->
     full_name p <> EmptyString /\ email p <> EmptyString /\
     tech_stack p <> EmptyString /\
     Py.endswith (Py.lower (email p)) "@gmail.com" = true /\
     (phone p = EmptyString \/
      Py.isdigit (phone p) = true /\ Py.len (phone p) = 10) /\
     looks_like_tech_stack (tech_stack p) = true) /\
  (latest_questions s = EmptyString \/
   Py.contains "###" (latest_questions s) = true).
Proof.
  intros Hr. destruct (reachable_consistent s Hr) as [_ _ _ _ Hc Hl _].
  split; [|exact Hl].
  intros p Hp. destruct (Hc p Hp) as [f [-> Hf]].
  exact (accepted_fields f Hf).
Qed.

Lemma stored_profile_is_valid_witness :
  let s := run None (CandidateSubmit profile_asha) at_form in
  candidate s <> None /\
  (forall p, candidate s = Some p ->
     full_name p <> EmptyString /\ email p <> EmptyString /\
     tech_stack p <> EmptyString /\
     Py.endswith (Py.lower (email p)) "@gmail.com" = true /\
     (phone p = EmptyString \/
      Py.isdigit (phone p) = true /\ Py.len (phone p) = 10) /\
     looks_like_tech_stack (tech_stack p) = true) /\
  (latest_questions s = EmptyString \/
   Py.contains "###" (latest_questions s) = true).
Proof.
  cbv zeta. split; [discriminate|].
  apply stored_profile_is_valid. unfold at_form. repeat constructor.
Defined.

(** X11: in a reachable session at the stage "questions" the follow-up
    request never falls back on the defaults "N/A" and "No questions.": its
    user message carries the tech stack of the stored candidate, the latest
    questions and the user's message, each as it is, in this order, and the
    request has the temperature 0.4. *)
Theorem followup_request_carries_profile (s : SessionState) (user_input : string) :
  reachable s ->
  stage s = Questions ->
  exists p,
    candidate s = Some p /\
    latest_questions s <> EmptyString /\
    map content (tl (messages (followup_request s user_input))) =
      [Py.nl ++ "Candidate tech stack: " ++ tech_stack p ++ Py.nl ++ Py.nl ++
       "Practice set you already generated:" ++ Py.nl ++ Py.nl ++
       latest_questions s ++ Py.nl ++ Py.nl ++
       "Candidate just asked:" ++ Py.nl ++ Py.nl ++
       user_input ++ Py.nl] /\
    temperature (followup_request s user_input) = (4 # 10)%Q.
Proof.
  intros Hr Hs.
  destruct (inv_questions _ (reachable_consistent s Hr) Hs) as [Hc Hl].
  destruct (candidate s) as [p|] eqn:Ep; [|congruence].
  exists p. split; [reflexivity|]. split; [exact Hl|].
  unfold followup_request. rewrite Ep. unfold Py.or_else.
  apply truthy_iff in Hl. rewrite Hl. split; reflexivity.
Qed.

Lemma followup_request_carries_profile_witness :
  exists p,
    candidate (run None (CandidateSubmit profile_asha) at_form) = Some p /\
    latest_questions (run None (CandidateSubmit profile_asha) at_form)
      <> EmptyString /\
    map content
      (tl (messages
             (followup_request (run None (CandidateSubmit profile_asha) at_form)
                "How do I start?"))) =
      [Py.nl ++ "Candidate tech stack: " ++ tech_stack p ++ Py.nl ++ Py.nl ++
       "Practice set you already generated:" ++ Py.nl ++ Py.nl ++
       latest_questions (run None (CandidateSubmit profile_asha) at_form) ++
       Py.nl ++ Py.nl ++
       "Candidate just asked:" ++ Py.nl ++ Py.nl ++
       "How do I start?" ++ Py.nl] /\
    temperature
      (followup_request (run None (CandidateSubmit profile_asha) at_form)
         "How do I start?") = (4 # 10)%Q.
Proof.
  apply (followup_request_carries_profile
           (run None (CandidateSubmit profile_asha) at_form) "How do I start?").
  - unfold at_form. repeat constructor.
  - reflexivity.
Defined.

Lemma transition_ended (s s' : SessionState) :
  transition s s' -> stage s = Ended -> view s = Chat ->
  stage s' = Ended /\ view s' = Chat /\
  history_messages s' = history_messages s /\
  candidate s' = candidate s /\
  latest_questions s' = latest_questions s.
Proof.
  intros [| b | Hv Hsc Hne | Hv Hsc He | f q Hv Hsc Hst Hval Hsec
          | text reply Hv Hsc Hne Hend | text Hv Hsc Hne Hend] Hs Hview; cbn;
    try congruence; tauto.
Qed.

(** X12: an ended session is frozen but for the chat log and the contact
    flag: along any sequence of runs from a state at the stage "ended" (in
    the chat view), the stage, the view, the history, the candidate and the
    latest questions stay as they are, whatever the user submits. *)
Theorem ended_session_is_frozen (l : list (option Client * Action))
    (s : SessionState) :
  stage s = Ended -> view s = Chat ->
  stage (runs l s) = Ended /\ view (runs l s) = Chat /\
  history_messages (runs l s) = history_messages s /\
  candidate (runs l s) = candidate s /\
  latest_questions (runs l s) = latest_questions s.
Proof.
  revert s. induction l as [|[client a] l IH]; intros s Hs Hv; cbn; [tauto|].
  destruct (transition_ended _ _ (run_transition client a s) Hs Hv)
    as [Hs' [Hv' [Hh [Hc Hl]]]].
  destruct (IH _ Hs' Hv') as [H1 [H2 [H3 [H4 H5]]]].
  repeat split; congruence.
Qed.

Lemma ended_session_is_frozen_witness :
  history_messages
    (runs [(None, CandidateSubmit profile_asha); (None, ChatInput "hello");
           (None, ContactChatClick)] ended_without_profile)
  = history_messages ended_without_profile.
Proof.
  apply (ended_session_is_frozen
           [(None, CandidateSubmit profile_asha); (None, ChatInput "hello");
            (None, ContactChatClick)] ended_without_profile); reflexivity.
Defined.

(* ===================================================================== *)
(** ** Further properties: the chat view                                  *)
(* ===================================================================== *)

Lemma is_out_of_scope_nonempty (text : string) :
  is_out_of_scope text = true -> text <> EmptyString.
Proof. intros H ->. discriminate H. Qed.

(** X13: at the stage "questions", a message that is not an end-intent and
    mentions an out-of-scope topic (story, joke, poem, song, lyrics,
    weather, news, movie, games, time pass) is answered with the fixed "not
    trained for that" text: the gateway is not called, nothing is sent and
    the stage stays "questions". *)
Theorem out_of_scope_gets_fixed_reply (client : option Client) (text : string)
    (s : SessionState) :
  stage s = Questions ->
  is_end_keyword text = false ->
  is_out_of_scope text = true ->
  answers_with_fixed OUT_OF_SCOPE_REPLY client text s /\
  stage (session (exec (render_chat client (ChatInput text)) (start s))) = Questions.
Proof.
  intros Hs He Ho. unfold answers_with_fixed.
  rewrite (render_chat_nonempty_chat client text s (is_out_of_scope_nonempty _ Ho)).
  rewrite on_chat_input_exec. cbn. rewrite He, Hs, Ho. now split.
Qed.

Lemma out_of_scope_gets_fixed_reply_witness :
  answers_with_fixed OUT_OF_SCOPE_REPLY None "What is the weather today?"
    (run None (CandidateSubmit profile_asha) at_form).
Proof.
  apply (out_of_scope_gets_fixed_reply None "What is the weather today?"
           (run None (CandidateSubmit profile_asha) at_form)); reflexivity.
Defined.

(** X14: at the stage "questions", a non-empty message that is neither an
    end-intent nor out of scope is passed to [answer_followup], once and as
    it was typed; the user turn and the returned text are appended to the
    live chat, nothing else of the session changes, and with a client the
    run sends exactly the follow-up request built from the session, without
    a client none. *)
Theorem followup_goes_to_gateway (client : option Client) (text : string)
    (s : SessionState) :
  stage s = Questions ->
  text <> EmptyString ->
  is_end_keyword text = false ->
  is_out_of_scope text = false ->
  let w' := exec (render_chat client (ChatInput text)) (start s) in
  let reply :=
    match client with
    | None => FOLLOWUP_NO_CLIENT
    | Some c =>
        match c (followup_request s text) with
        | Completion answer => Py.strip answer
        | Raised exc_type _ => FOLLOWUP_FAILED_PREFIX ++ exc_type ++ ")"
        end
    end in
  session w' =
    set_chat_messages
      (chat_messages s ++ [user_turn text; assistant_turn reply])%list s /\
  invocations (events w') = [AnswerFollowup text] /\
  requests (events w') =
    match client with
    | None => []
    | Some _ => [followup_request s text]
    end.
Proof.
  intros Hs Hne He Ho w' reply. subst w' reply.
  rewrite (render_chat_nonempty_chat client text s Hne).
  rewrite on_chat_input_exec. cbn. rewrite He, Hs, Ho. cbn.
  rewrite answer_followup_result, answer_followup_events. cbn.
  change (followup_request
            (set_chat_messages (chat_messages s ++ [user_turn text])%list s) text)
    with (followup_request s text).
  destruct client as [c|]; now repeat split.
Qed.

Lemma followup_goes_to_gateway_witness :
  let s := run None (CandidateSubmit profile_asha) at_form in
  let w' := exec (render_chat
                    (Some (fun _ => Completion " Start with the basics. "))
                    (ChatInput "How do I start?")) (start s) in
  session w' =
    set_chat_messages
      (chat_messages s ++ [user_turn "How do I start?";
                           assistant_turn "Start with the basics."])%list s /\
  invocations (events w') = [AnswerFollowup "How do I start?"] /\
  requests (events w') = [followup_request s "How do I start?"].
Proof.
  apply (followup_goes_to_gateway
           (Some (fun _ => Completion " Start with the basics. "))
           "How do I start?" (run None (CandidateSubmit profile_asha) at_form));
    try reflexivity; discriminate.
Defined.

(** X15: a profile that passes validation, submitted at the stage "form"
    or "questions": the candidate is set to the seven submitted fields, one
    confirmation naming the candidate and the tech stack is appended to the
    history, the gateway is asked once for questions on the tech stack as
    typed, its answer (the stripped completion when it has a "###" in it,
    the generic practice set otherwise) becomes the latest questions and
    the stage becomes "questions"; the live chat, the view and the contact
    flag are not touched. *)
Theorem accepted_submission_effects (client : option Client) (f : FormInput)
    (s : SessionState) :
  ~ validation_fails f ->
  stage s <> Ended ->
  let w' := exec (render_chat client (CandidateSubmit f)) (start s) in
  candidate (session w') =
    Some {| full_name := in_full_name f; email := in_email f;
            phone := in_phone f; years_experience := in_years_exp f;
            desired_position := in_desired_pos f; location := in_location f;
            tech_stack := in_tech_stack f |} /\
  stage (session w') = Questions /\
  history_messages (session w') =
    (history_messages s ++
     [{| role := "assistant";
         content :=
           "Got it, **" ++ in_full_name f ++
           "**! I’ll generate a practice set based on your tech stack: `" ++
           in_tech_stack f ++ "`." |}])%list /\
  latest_questions (session w') =
    match client with
    | None => _generic_fallback_markdown
    | Some c =>
        match c (questions_request (in_tech_stack f)) with
        | Completion text =>
            if Py.contains "###" (Py.strip text) then Py.strip text
            else _generic_fallback_markdown
        | Raised _ _ => _generic_fallback_markdown
        end
    end /\
  invocations (events w') = [GenerateQuestions (in_tech_stack f)] /\
  requests (events w') =
    match client with
    | None => []
    | Some _ => [questions_request (in_tech_stack f)]
    end /\
  chat_messages (session w') = chat_messages s /\
  view (session w') = view s /\ show_contact (session w') = show_contact s.
Proof.
  intros Hf Hs w'. subst w'.
  assert (E : exec (render_chat client (CandidateSubmit f)) (start s) =
              exec (on_candidate_submit client f) (start s)).
  { unfold exec. rewrite render_chat_on_submit. cbn. now destruct (stage s). }
  rewrite E, (on_candidate_submit_accepted client f (start s) Hf). cbn.
  rewrite generate_events. cbn.
  destruct client as [c|]; cbn; [|now repeat split].
  rewrite generate_result.
  destruct (c (questions_request (in_tech_stack f))) as [text | ty tx]; cbn;
    [destruct (Py.contains "###" (Py.strip text)); cbn|]; now repeat split.
Qed.

Lemma accepted_submission_effects_witness :
  let w' := exec (render_chat None (CandidateSubmit profile_ravi)) (start at_form) in
  candidate (session w') =
    Some {| full_name := "Ravi"; email := "ravi@gmail.com"; phone := EmptyString;
            years_experience := 5; desired_position := "DevOps";
            location := "Mysuru"; tech_stack := "Docker, Kubernetes" |} /\
  stage (session w') = Questions /\
  history_messages (session w') =
    (history_messages at_form ++
     [{| role := "assistant";
         content :=
           "Got it, **Ravi**! I’ll generate a practice set based on your tech stack: `Docker, Kubernetes`." |}])%list /\
  latest_questions (session w') = _generic_fallback_markdown /\
  invocations (events w') = [GenerateQuestions "Docker, Kubernetes"] /\
  requests (events w') = [] /\
  chat_messages (session w') = chat_messages at_form /\
  view (session w') = view at_form /\
  show_contact (session w') = show_contact at_form.
Proof.
  apply (accepted_submission_effects None profile_ravi at_form).
  - apply not_refused_iff. reflexivity.
  - discriminate.
Defined.

(** X16: the checks of the form run in a fixed order and the first one that
    fails decides the notice: a missing required field gives the warning
    about name, Gmail address and tech stack whatever else is wrong; then
    the email, then the phone, then the tech stack, each with its own
    error. *)
Theorem first_failed_check_decides_notice (client : option Client) (f : FormInput)
    (s : SessionState) :
  stage s <> Ended ->
  let shown := events (exec (render_chat client (CandidateSubmit f)) (start s)) in
  (required_field_missing f -> shown = [Shown Warning MSG_REQUIRED_FIELDS]) /\
  (~ required_field_missing f -> email_domain_wrong f ->
   shown = [Shown Error MSG_BAD_EMAIL]) /\
  (~ required_field_missing f -> ~ email_domain_wrong f -> phone_malformed f ->
   shown = [Shown Error MSG_BAD_PHONE]) /\
  (~ required_field_missing f -> ~ email_domain_wrong f -> ~ phone_malformed f ->
   tech_stack_implausible f ->
   shown = [Shown Error MSG_BAD_TECH_STACK]).
Proof.
  intros Hs shown.
  assert (E : shown = events (exec (on_candidate_submit client f) (start s))).
  { subst shown. unfold exec. rewrite render_chat_on_submit. cbn.
    now destruct (stage s). }
  rewrite E. clear E shown. unfold exec, on_candidate_submit.
  rewrite <- required_field_missing_iff, <- email_domain_wrong_iff,
    <- phone_malformed_iff.
  unfold tech_stack_implausible.
  destruct (negb (Py.truthy (in_full_name f)) || negb (Py.truthy (in_email f)) ||
            negb (Py.truthy (in_tech_stack f))).
  { repeat split; intros; try congruence; reflexivity. }
  destruct (negb (Py.endswith (Py.lower (in_email f)) "@gmail.com")).
  { repeat split; intros; try congruence; reflexivity. }
  destruct (Py.truthy (in_phone f) &&
            (negb (Py.isdigit (in_phone f)) ||
             negb (Nat.eqb (Py.len (in_phone f)) 10))).
  { repeat split; intros; try congruence; reflexivity. }
  repeat split; intros; try congruence.
  match goal with H : looks_like_tech_stack _ = false |- _ => rewrite H end.
  reflexivity.
Qed.

Lemma first_failed_check_decides_notice_witness :
  events
    (exec (render_chat None
             (CandidateSubmit
                {| in_full_name := EmptyString; in_email := "someone@yahoo.com";
                   in_phone := "12"; in_years_exp := 1; in_desired_pos := "QA";
                   in_location := "Hubli"; in_tech_stack := "cooking" |}))
          (start at_form))
  = [Shown Warning MSG_REQUIRED_FIELDS].
Proof.
  apply first_failed_check_decides_notice; [discriminate|].
  left. reflexivity.
Defined.

(* ===================================================================== *)
(** ** Further properties: the contact form and the whole run             *)
(* ===================================================================== *)

(** X17: while the contact form is open it is all that a run draws: the
    Close button and a submission with its three fields filled close it, a
    submission with an empty field keeps it open with a warning, and every
    other action (a chat message or a profile sent before the page was
    redrawn, the buttons of the other views) is lost: the session state
    stays as it is, the gateway is not called. *)
Theorem contact_form_preempts (client : option Client) (a : Action)
    (s : SessionState) :
  show_contact s = true ->
  (a = CloseClick -> run client a s = set_show_contact false s) /\
  (forall name email message,
     a = ContactSubmit name email message ->
     (name <> EmptyString /\ email <> EmptyString /\ message <> EmptyString ->
      run client a s = set_show_contact false s /\
      run_events client a s
        = (setup_events client ++ [Shown Success MSG_CONTACT_RECEIVED])%list) /\
     (name = EmptyString \/ email = EmptyString \/ message = EmptyString ->
      run client a s = s /\
      run_events client a s
        = (setup_events client ++ [Shown Warning MSG_CONTACT_INCOMPLETE])%list)) /\
  (a <> CloseClick ->
   (forall name email message, a <> ContactSubmit name email message) ->
   run client a s = s /\ run_events client a s = setup_events client).
Proof.
  intros Hc. unfold run, run_events. rewrite script_exec, Hc,
    render_contact_form_exec.
  split; [intros ->; reflexivity|]. split.
  - intros n e m ->.
    split.
    + intros [Hn [He Hm]]. apply truthy_iff in Hn, He, Hm.
      now rewrite Hn, He, Hm.
    + intros H.
      assert (E : negb (Py.truthy n) || negb (Py.truthy e) || negb (Py.truthy m)
                  = true).
      { rewrite !orb_true_iff, !negb_true_iff, !truthy_false_iff. tauto. }
      now rewrite E.
  - intros H1 H2. destruct a as [| n e m | | | | | f | text];
      try (now split); congruence.
Qed.

Lemma contact_form_preempts_witness :
  run None (ChatInput "bye") (run None ContactChatClick at_form)
  = run None ContactChatClick at_form.
Proof.
  apply (contact_form_preempts None (ChatInput "bye")
           (run None ContactChatClick at_form)).
  - reflexivity.
  - discriminate.
  - discriminate.
Defined.

(** X18: opening the contact form and closing it again brings the session
    back to where it was.  With the contact form closed, a click on "Contact
    us" (of the view on screen) only sets the flag; the form itself is drawn
    by the next run, whose own action, coming from the old screen, is lost;
    the Close button then restores the state exactly. *)
Theorem contact_open_close_round_trip (c1 c2 c3 : option Client) (next : Action)
    (s : SessionState) :
  show_contact s = false ->
  next <> CloseClick ->
  (forall name email message, next <> ContactSubmit name email message) ->
  let open_click :=
    match view s with
    | Intro => ContactIntroClick
    | Chat => ContactChatClick
    end in
  run c1 open_click s = set_show_contact true s /\
  run c2 next (run c1 open_click s) = set_show_contact true s /\
  run c3 CloseClick (run c2 next (run c1 open_click s)) = s.
Proof.
  intros Hc Hn1 Hn2 open_click.
  assert (E1 : run c1 open_click s = set_show_contact true s).
  { subst open_click. unfold run. rewrite script_exec, Hc.
    destruct (view s).
    - now rewrite render_intro_exec.
    - now rewrite render_chat_exec_other. }
  assert (E2 : run c2 next (set_show_contact true s) = set_show_contact true s).
  { unfold run. rewrite script_exec. cbn [show_contact set_show_contact].
    rewrite render_contact_form_exec.
    destruct next as [| n e m | | | | | f | text]; try reflexivity; congruence. }
  rewrite E1, E2. split; [reflexivity|]. split; [reflexivity|].
  unfold run. rewrite script_exec. cbn [show_contact set_show_contact].
  rewrite render_contact_form_exec. cbn.
  destruct s. cbn in *. now subst.
Qed.

Lemma contact_open_close_round_trip_witness :
  run None CloseClick
    (run None (ChatInput "hello") (run None ContactChatClick at_form))
  = at_form.
Proof.
  apply (contact_open_close_round_trip None None None (ChatInput "hello") at_form).
  - reflexivity.
  - discriminate.
  - discriminate.
Defined.

(** The events of a run, after those of the setup. *)
Lemma run_events_shape (client : option Client) (a : Action) (s : SessionState) :
  exists ev,
    run_events client a s = (setup_events client ++ ev)%list /\
    length (invocations ev) <= 1 /\
    length (requests ev) <= length (invocations ev) /\
    (client = None -> requests ev = []).
Proof.
  unfold run_events. rewrite script_exec.
  set (w := {| session := s; events := setup_events client |}).
  assert (Hnil : exists ev,
            events w = (setup_events client ++ ev)%list /\
            length (invocations ev) <= 1 /\
            length (requests ev) <= length (invocations ev) /\
            (client = None -> requests ev = [])).
  { exists []. cbn. rewrite app_nil_r. repeat split; auto. }
  assert (Hone : forall n, exists ev,
            (events w ++ [Shown (fst n) (snd n)] = setup_events client ++ ev)%list /\
            length (invocations ev) <= 1 /\
            length (requests ev) <= length (invocations ev) /\
            (client = None -> requests ev = [])).
  { intros n. exists [Shown (fst n) (snd n)]. cbn. repeat split; auto. }
  destruct (show_contact s).
  { rewrite render_contact_form_exec.
    destruct a as [| n e m | | | | | f | text]; try exact Hnil.
    destruct (negb (Py.truthy n) || negb (Py.truthy e) || negb (Py.truthy m)).
    - exact (Hone (Warning, MSG_CONTACT_INCOMPLETE)).
    - exact (Hone (Success, MSG_CONTACT_RECEIVED)). }
  destruct (view s).
  { rewrite render_intro_exec.
    destruct a; try exact Hnil. now destruct (history_messages (session w)). }
  destruct a as [| n e m | | | | | f | text];
    try (rewrite render_chat_exec_other by reflexivity; exact Hnil).
  - unfold exec. rewrite render_chat_on_submit.
    destruct (stage (session w)) eqn:Hs; try exact Hnil;
      (destruct (refused f) eqn:Ef;
       [ apply refused_iff in Ef;
         destruct (on_candidate_submit_refused client f w Ef)
           as [n [-> Hn]]; cbn;
         destruct Hn as [[-> _]|[[-> _]|[[-> _]|[-> _]]]];
         [ exact (Hone (Warning, MSG_REQUIRED_FIELDS))
         | exact (Hone (Error, MSG_BAD_EMAIL))
         | exact (Hone (Error, MSG_BAD_PHONE))
         | exact (Hone (Error, MSG_BAD_TECH_STACK)) ]
       | apply not_refused_iff in Ef;
         pose proof (on_candidate_submit_accepted client f w Ef) as Ha;
         unfold exec in Ha; cbn in Ha; rewrite Ha; cbn;
         pose proof (generate_events client (in_tech_stack f)) as Hg;
         unfold exec in Hg; rewrite Hg; cbn;
         eexists; split; [reflexivity|];
         destruct client as [c|]; cbn;
         [ destruct (c (questions_request (in_tech_stack f))) as [t | ty tx];
           cbn; [destruct (Py.contains "###" (Py.strip t)); cbn|]
         | ];
         repeat split; auto; discriminate ]).
  - unfold exec. rewrite render_chat_on_chat.
    destruct (Py.truthy text); [|exact Hnil].
    pose proof (on_chat_input_exec client text w) as He.
    unfold exec in He. rewrite He. cbn.
    destruct (is_end_keyword text); [exact Hnil|].
    destruct (stage s); try exact Hnil.
    destruct (is_out_of_scope text); [exact Hnil|].
    cbn. pose proof (answer_followup_events client text) as Hg.
    unfold exec in Hg. rewrite Hg. cbn.
    eexists. split; [reflexivity|].
    destruct client as [c|]; cbn; repeat split; auto; discriminate.
Qed.

(** X19: one user action costs at most one call of the gateway: in every
    run, whatever the action, the state and the client, at most one of the
    two gateway functions is entered, at most once, and at most one request
    is sent to the service (none when no gateway function is entered). *)
Theorem one_gateway_call_per_run (client : option Client) (a : Action)
    (s : SessionState) :
  length (invocations (run_events client a s)) <= 1 /\
  length (requests (run_events client a s))
    <= length (invocations (run_events client a s)).
Proof.
  destruct (run_events_shape client a s) as [ev [-> [H1 [H2 _]]]].
  rewrite invocations_app, requests_app.
  assert (E : invocations (setup_events client) = [] /\
              requests (setup_events client) = []) by now destruct client.
  destruct E as [-> ->]. cbn. split; assumption.
Qed.

(** X20: a session without API key is degraded, never broken: every run
    starts with the warning that the key is not set and sends no request at
    all, and the latest questions after the run are those before it or the
    generic fallback. *)
Theorem without_key_nothing_is_sent (a : Action) (s : SessionState) :
  (exists rest,
     run_events None a s = Shown Warning MSG_KEY_NOT_SET :: rest /\
     requests rest = []) /\
  (latest_questions (run None a s) = latest_questions s \/
   latest_questions (run None a s) = GENERIC_FALLBACK_TEXT).
Proof.
  split.
  - destruct (run_events_shape None a s) as [ev [-> [_ [_ H]]]].
    exists ev. split; [reflexivity | now apply H].
  - unfold run. rewrite script_exec.
    set (w := {| session := s; events := setup_events None |}).
    destruct (show_contact s).
    { rewrite render_contact_form_exec.
      destruct a as [| n e m | | | | | f | text]; cbn; auto.
      destruct (negb (Py.truthy n) || negb (Py.truthy e) || negb (Py.truthy m));
        cbn; auto. }
    destruct (view s).
    { rewrite render_intro_exec.
      destruct a; cbn; auto. destruct (history_messages s); cbn; auto. }
    destruct a as [| n e m | | | | | f | text];
      try (rewrite render_chat_exec_other by reflexivity; cbn; now left).
    + unfold exec. rewrite render_chat_on_submit. cbn.
      destruct (stage s); auto;
        (destruct (refused f) eqn:Ef;
         [ apply refused_iff in Ef;
           destruct (on_candidate_submit_refused None f w Ef) as [n [-> _]];
           now left
         | apply not_refused_iff in Ef;
           pose proof (on_candidate_submit_accepted None f w Ef) as Ha;
           unfold exec in Ha; cbn in Ha; rewrite Ha; cbn; now right ]).
    + unfold exec. rewrite render_chat_on_chat.
      destruct (Py.truthy text); [|now left].
      pose proof (on_chat_input_exec None text w) as He.
      unfold exec in He. rewrite He. cbn.
      destruct (is_end_keyword text); cbn; [now left|].
      destruct (stage s); cbn; try now left.
      destruct (is_out_of_scope text); cbn; now left.
Qed.

(** X21: input that the run cannot use is dropped without a trace in the
    session state: an empty chat message, any action other than its two
    buttons while the intro view is on screen, and a profile submitted
    (even a valid one) once the stage is "ended", where the form is not
    drawn any more. *)
Theorem unusable_input_is_dropped (client : option Client) (s : SessionState) :
  run client (ChatInput EmptyString) s = s /\
  (forall a,
     view s = Intro -> show_contact s = false ->
     a <> StartClick -> a <> ContactIntroClick ->
     run client a s = s) /\
  (forall f, stage s = Ended -> run client (CandidateSubmit f) s = s).
Proof.
  unfold run. split; [|split].
  - rewrite script_exec.
    destruct (show_contact s); [now rewrite render_contact_form_exec|].
    destruct (view s); [now rewrite render_intro_exec|].
    unfold exec. now rewrite render_chat_on_chat.
  - intros a Hv Hc H1 H2. rewrite script_exec, Hc, Hv, render_intro_exec.
    destruct a; try reflexivity; congruence.
  - intros f Hs. rewrite script_exec.
    destruct (show_contact s); [now rewrite render_contact_form_exec|].
    destruct (view s); [now rewrite render_intro_exec|].
    unfold exec. rewrite render_chat_on_submit. cbn. now rewrite Hs.
Qed.

(** The views are drawn one run late: the run of the welcome button still
    draws the intro view, and the next action, whatever it is, only brings
    the chat view on screen.  The sample sessions above leave that run out;
    with it they end in the same states. *)
Example sample_sessions_with_redraw :
  run None StartClick at_form = at_form /\
  runs [(None, StartClick); (None, StartClick); (None, ChatInput "bye")]
    initial_state = ended_without_profile.
Proof. split; reflexivity. Qed.
